(** * Churras: booking lifecycle, statistics and search filter

    A shallow embedding of the screen logic of the barbecue-catering
    marketplace app (React Native + Supabase) and the properties its
    specification states about it.

    Conventions of the embedding.
    - A JavaScript [number] is an exact rational ([Q]) where it carries a
      price or a rate and an integer ([Z]) where it carries a count, an
      index or a time value; IEEE-754 rounding is outside the model.
    - A [Date] is its time value: milliseconds since the epoch, UTC, or
      [None] for an Invalid Date (whose getters return NaN).  The local
      time zone is a parameter [tz]: the offset, in milliseconds, that
      local time has from UTC at a given instant.
    - A string is a [string] of bytes; case mapping and white space are
      the ASCII ones.
    - A plain object used as a dictionary is the list of its own
      properties in creation order, looked up through [Object.prototype].
    - Screen state set with [useState] setters and rows held by the
      backend are passed explicitly. *)

From Stdlib Require Import ZArith QArith List String Ascii Bool Lia.
From Stdlib Require Import Permutation Sorted Lqa DecimalString.
Import ListNotations.

Set Implicit Arguments.

(** ** The JavaScript runtime pieces the screens rely on *)

Module JS.

Local Open Scope Z_scope.

(** *** Date *)

Definition msPerDay : Z := 86400000.

(** Day number (days since 1970-01-01) of a civil date of the proleptic
    Gregorian calendar; [m] is 1-based. *)
Definition DaysFromCivil (y m d : Z) : Z :=
  let y' := if m <=? 2 then y - 1 else y in
  let era := y' / 400 in
  let yoe := y' - era * 400 in
  let mp := (m + 9) mod 12 in
  let doy := (153 * mp + 2) / 5 + d - 1 in
  let doe := yoe * 365 + yoe / 4 - yoe / 100 + doy in
  era * 146097 + doe - 719468.

(** The civil date (year, 1-based month, day of month) of a day number. *)
Definition CivilFromDays (z : Z) : Z * Z * Z :=
  let z := z + 719468 in
  let era := z / 146097 in
  let doe := z - era * 146097 in
  let yoe := (doe - doe / 1460 + doe / 36524 - doe / 146096) / 365 in
  let y := yoe + era * 400 in
  let doy := doe - (365 * yoe + yoe / 4 - yoe / 100) in
  let mp := (5 * doy + 2) / 153 in
  let d := doy - (153 * mp + 2) / 5 + 1 in
  let m := if mp <? 10 then mp + 3 else mp - 9 in
  (if m <=? 2 then y + 1 else y, m, d).

Definition Day (t : Z) : Z := t / msPerDay.

Definition YearFromTime (t : Z) : Z :=
  let '(y, _, _) := CivilFromDays (Day t) in y.

(** Months are numbered from 0 (January) to 11, as [getMonth] does. *)
Definition MonthFromTime (t : Z) : Z :=
  let '(_, m, _) := CivilFromDays (Day t) in m - 1.

Definition isLeap (y : Z) : bool :=
  ((y mod 4 =? 0) && negb (y mod 100 =? 0)) || (y mod 400 =? 0).

Definition DaysInMonth (y m : Z) : Z :=
  if m =? 2 then (if isLeap y then 29 else 28)
  else if (m =? 4) || (m =? 6) || (m =? 9) || (m =? 11) then 30
  else 31.

Definition digit (c : ascii) : option Z :=
  let n := Z.of_nat (nat_of_ascii c) in
  if (48 <=? n) && (n <=? 57) then Some (n - 48) else None.

Definition digits2 (a b : ascii) : option Z :=
  match digit a, digit b with
  | Some x, Some y => Some (10 * x + y)
  | _, _ => None
  end.

Definition digits4 (a b c d : ascii) : option Z :=
  match digits2 a b, digits2 c d with
  | Some x, Some y => Some (100 * x + y)
  | _, _ => None
  end.

Definition isDash (c : ascii) : bool := Ascii.eqb c "-"%char.

(** [new Date(s)] for the date-only form [YYYY-MM-DD], which is what the
    [date] column [event_date] is serialised to: midnight UTC of that
    day.  Any other text is an Invalid Date here. *)
Definition Date_parse (s : string) : option Z :=
  match list_ascii_of_string s with
  | [y1; y2; y3; y4; s1; m1; m2; s2; d1; d2] =>
      match digits4 y1 y2 y3 y4, digits2 m1 m2, digits2 d1 d2 with
      | Some y, Some m, Some d =>
          if isDash s1 && isDash s2
             && (1 <=? m) && (m <=? 12)
             && (1 <=? d) && (d <=? DaysInMonth y m)
          then Some (DaysFromCivil y m d * msPerDay)
          else None
      | _, _, _ => None
      end
  | _ => None
  end.

Section LocalTime.

(** Offset of local time from UTC, in milliseconds, at an instant. *)
Variable tz : Z -> Z.

Definition LocalTime (t : Z) : Z := t + tz t.

(** [getFullYear] and [getMonth]; [None] is NaN. *)
Definition getFullYear (d : option Z) : option Z :=
  option_map (fun t => YearFromTime (LocalTime t)) d.

Definition getMonth (d : option Z) : option Z :=
  option_map (fun t => MonthFromTime (LocalTime t)) d.

End LocalTime.

(** Arithmetic and comparisons on numbers that may be NaN ([None]):
    NaN propagates through arithmetic and fails every comparison. *)
Definition num2 (f : Z -> Z -> Z) (a b : option Z) : option Z :=
  match a, b with
  | Some x, Some y => Some (f x y)
  | _, _ => None
  end.

Definition cmp2 (f : Z -> Z -> bool) (a b : option Z) : bool :=
  match a, b with
  | Some x, Some y => f x y
  | _, _ => false
  end.

Definition sub := num2 Z.sub.
Definition add := num2 Z.add.
Definition mul := num2 Z.mul.
Definition ge := cmp2 Z.geb.
Definition lt := cmp2 Z.ltb.
Definition strictEq := cmp2 Z.eqb.

(** *** String *)

Definition lowerChar (c : ascii) : ascii :=
  let n := nat_of_ascii c in
  if (Nat.leb 65 n && Nat.leb n 90)%bool then ascii_of_nat (n + 32) else c.

Fixpoint toLowerCase (s : string) : string :=
  match s with
  | EmptyString => EmptyString
  | String c s' => String (lowerChar c) (toLowerCase s')
  end.

(** [s.includes(sub)]: [sub] occurs in [s] as a substring. *)
Fixpoint includes (s sub : string) : bool :=
  String.prefix sub s
  || match s with
     | EmptyString => false
     | String _ s' => includes s' sub
     end.

Definition isWhiteSpace (c : ascii) : bool :=
  let n := nat_of_ascii c in
  (Nat.eqb n 32 || (Nat.leb 9 n && Nat.leb n 13))%bool.

(** Truthiness of [s.trim()]: some character of [s] is not white space. *)
Fixpoint trimIsTruthy (s : string) : bool :=
  match s with
  | EmptyString => false
  | String c s' => negb (isWhiteSpace c) || trimIsTruthy s'
  end.

(** Truthiness of a string: it is not empty. *)
Definition truthy (s : string) : bool :=
  match s with EmptyString => false | _ => true end.

(** *** Array *)

Definition array_includes (l : list string) (k : string) : bool :=
  existsb (String.eqb k) l.

Section Sort.

Variable A : Type.
(** The comparator: negative when its first argument goes first. *)
Variable compareFn : A -> A -> Q.

Fixpoint sort_insert (x : A) (l : list A) : list A :=
  match l with
  | [] => [x]
  | y :: l' =>
      if Qle_bool (compareFn x y) 0 then x :: l
      else y :: sort_insert x l'
  end.

(** [Array.prototype.sort]: a stable sort; elements the comparator
    calls equal keep their order. *)
Definition sort (l : list A) : list A := fold_right sort_insert [] l.

End Sort.

Definition slice0 (A : Type) (n : nat) (l : list A) : list A := firstn n l.

(** *** Plain objects used as dictionaries *)

(** Names every plain object inherits from [Object.prototype]; each of
    them reads as a function or an object, that is, as a truthy value. *)
Definition prototypeKeys : list string :=
  [ "constructor"; "__defineGetter__"; "__defineSetter__";
    "hasOwnProperty"; "__lookupGetter__"; "__lookupSetter__";
    "isPrototypeOf"; "propertyIsEnumerable"; "toString"; "valueOf";
    "__proto__"; "toLocaleString" ]%string.

Definition inherited (k : string) : bool := array_includes prototypeKeys k.

(** Own properties, in creation order. *)
Definition Obj (V : Type) : Type := list (string * V).

Fixpoint getOwn (V : Type) (o : Obj V) (k : string) : option V :=
  match o with
  | [] => None
  | (k', v) :: o' => if String.eqb k k' then Some v else getOwn o' k
  end.

Fixpoint setOwn (V : Type) (o : Obj V) (k : string) (v : V) : Obj V :=
  match o with
  | [] => [(k, v)]
  | (k', v') :: o' =>
      if String.eqb k k' then (k', v) :: o' else (k', v') :: setOwn o' k v
  end.

(** The value of a numeric string: digits only, no leading zero. *)
Fixpoint digitsValue (acc : Z) (s : string) : option Z :=
  match s with
  | EmptyString => Some acc
  | String c s' =>
      match digit c with
      | Some d => digitsValue (10 * acc + d) s'
      | None => None
      end
  end.

(** A property key is an array index when it is the canonical decimal
    form of an integer in [0, 2^32 - 2]. *)
Definition arrayIndex (k : string) : option Z :=
  match k with
  | EmptyString => None
  | String c rest =>
      if (Ascii.eqb c "0"%char && negb (String.eqb rest EmptyString))%bool
      then None
      else match digitsValue 0 k with
           | Some n => if n <=? 4294967294 then Some n else None
           | None => None
           end
  end.

Definition isIndexKey (V : Type) (e : string * V) : bool :=
  match arrayIndex (fst e) with Some _ => true | None => false end.

Definition indexOrder (V : Type) (a b : string * V) : Q :=
  match arrayIndex (fst a), arrayIndex (fst b) with
  | Some x, Some y => inject_Z (x - y)
  | _, _ => 0%Q
  end.

(** [Object.entries]: own properties, array-index keys first in
    ascending numeric order, then the other keys in creation order. *)
Definition entries (V : Type) (o : Obj V) : list (string * V) :=
  sort (@indexOrder V) (filter (@isIndexKey V) o)
  ++ filter (fun e => negb (isIndexKey e)) o.

End JS.

(** ** Rows and joined records, as the screens declare them *)

Module Schema.

(** The enum [booking_status] of the migration. *)
Inductive booking_status : Type :=
| pending
| confirmed
| cancelled
| completed.

Definition status_eqb (a b : booking_status) : bool :=
  match a, b with
  | pending, pending | confirmed, confirmed
  | cancelled, cancelled | completed, completed => true
  | _, _ => false
  end.

Definition status_of_string (s : string) : option booking_status :=
  if String.eqb s "pending" then Some pending
  else if String.eqb s "confirmed" then Some confirmed
  else if String.eqb s "cancelled" then Some cancelled
  else if String.eqb s "completed" then Some completed
  else None.

Definition string_of_status (s : booking_status) : string :=
  match s with
  | pending => "pending"
  | confirmed => "confirmed"
  | cancelled => "cancelled"
  | completed => "completed"
  end.

(** The joined [services] object of a booking. *)
Record ServiceRef : Type := {
  title : string;
  duration_hours : Z
}.

(** The joined [profiles] object of a booking (the counterpart). *)
Record ProfileRef : Type := {
  full_name : string;
  phone : option string
}.

(** A row of [bookings] with the objects the screens join to it. *)
Record Booking : Type := {
  id : string;
  client_id : string;
  professional_id : string;
  service_id : string;
  event_date : string;
  event_time : string;
  guests_count : Z;
  location : string;
  status : booking_status;
  total_price : Q;
  notes : option string;
  created_at : Z;
  updated_at : Z;
  services : option ServiceRef;
  profiles : option ProfileRef
}.

(** What an awaited query gives back: it threw, or it returned the
    pair [{ data, error }]. *)
Inductive Reply (A : Type) : Type :=
| Threw
| Returned (data : option A) (error : option string).

Arguments Threw {A}.

End Schema.

(** ** The analytics screen: [loadAnalyticsData] *)

Module Analytics.

Import Schema.
Local Open Scope Q_scope.

(** The values of the [serviceStats] dictionary. *)
Module Stat.
Record t : Type := { bookings : Z; revenue : Q }.
End Stat.

Record TopService : Type := {
  title : string;
  bookings : Z;
  revenue : Q
}.

Record AnalyticsData : Type := {
  totalRevenue : Q;
  totalBookings : Z;
  averageRating : Q;
  completionRate : Q;
  monthlyRevenue : list Q;
  topServices : list TopService
}.

Definition defaultTitle : string := "Serviço de Churrasco".

Definition isCompleted (b : Booking) : bool :=
  status_eqb (status b) completed.

(** [arr.length] as a number. *)
Definition len (A : Type) (l : list A) : Z := Z.of_nat (List.length l).

Definition sumPrices (l : list Booking) : Q :=
  fold_left (fun sum b => sum + total_price b) l 0.

Section Clock.

Variable tz : Z -> Z.
(** The reading of [new Date()]. *)
Variable currentDate : Z.

Definition monthDiff (booking : Booking) : option Z :=
  let bookingDate := JS.Date_parse (event_date booking) in
  JS.add
    (JS.mul (JS.sub (JS.getFullYear tz (Some currentDate))
                    (JS.getFullYear tz bookingDate))
            (Some 12%Z))
    (JS.sub (JS.getMonth tz (Some currentDate))
            (JS.getMonth tz bookingDate)).

(** [arr[n] += v] at an index inside the array. *)
Fixpoint addAt (n : nat) (v : Q) (arr : list Q) : list Q :=
  match arr, n with
  | [], _ => []
  | x :: arr', O => (x + v) :: arr'
  | x :: arr', S n' => x :: addAt n' v arr'
  end.

(** One turn of the first [forEach]. *)
Definition addMonthly (monthlyRevenue : list Q) (booking : Booking)
  : list Q :=
  let d := monthDiff booking in
  if (JS.ge d (Some 0%Z) && JS.lt d (Some 6%Z))%bool then
    match d with
    | Some k => addAt (Z.to_nat (5 - k)) (total_price booking) monthlyRevenue
    | None => monthlyRevenue
    end
  else monthlyRevenue.

(** [booking.services?.title || 'Serviço de Churrasco']. *)
Definition serviceTitle (booking : Booking) : string :=
  match services booking with
  | Some s => if JS.truthy (Schema.title s) then Schema.title s
              else defaultTitle
  | None => defaultTitle
  end.

(** Whether [serviceStats[k]] reads as a truthy value: an own entry
    (an object) or a member inherited from [Object.prototype]. *)
Definition readsTruthy (serviceStats : JS.Obj Stat.t) (k : string) : bool :=
  match JS.getOwn serviceStats k with
  | Some _ => true
  | None => JS.inherited k
  end.

(** [serviceStats[k].field = f(serviceStats[k].field)]: when [k] is not
    an own key the object written to is the inherited one, and the
    dictionary's own entries stay as they are.  (What such a write leaves
    behind is a NaN field, which reads as falsy wherever it is seen.) *)
Definition update (serviceStats : JS.Obj Stat.t) (k : string)
           (f : Stat.t -> Stat.t) : JS.Obj Stat.t :=
  match JS.getOwn serviceStats k with
  | Some s => JS.setOwn serviceStats k (f s)
  | None => serviceStats
  end.

(** One turn of the second [forEach]. *)
Definition addService (serviceStats : JS.Obj Stat.t) (booking : Booking)
  : JS.Obj Stat.t :=
  let k := serviceTitle booking in
  let s1 :=
    if negb (readsTruthy serviceStats k)
    then JS.setOwn serviceStats k {| Stat.bookings := 0; Stat.revenue := 0 |}
    else serviceStats in
  let s2 :=
    update s1 k (fun s => {| Stat.bookings := Stat.bookings s + 1;
                             Stat.revenue := Stat.revenue s |}) in
  update s2 k (fun s => {| Stat.bookings := Stat.bookings s;
                           Stat.revenue := Stat.revenue s
                                           + total_price booking |}).

Definition toTopService (e : string * Stat.t) : TopService :=
  {| title := fst e;
     bookings := Stat.bookings (snd e);
     revenue := Stat.revenue (snd e) |}.

(** The comparator [(a, b) => b.revenue - a.revenue]. *)
Definition byRevenueDesc (a b : TopService) : Q := revenue b - revenue a.

(** The body of the [else] branch: the state value that is set. *)
Definition computeAnalytics (bookings : option (list Booking))
  : AnalyticsData :=
  let totalBookings :=
    match bookings with Some l => len l | None => 0%Z end in
  let completedBookings :=
    match bookings with Some l => filter isCompleted l | None => [] end in
  let totalRevenue := sumPrices completedBookings in
  let completionRate :=
    if (totalBookings >? 0)%Z
    then (inject_Z (len completedBookings) / inject_Z totalBookings) * 100
    else 0 in
  let monthlyRevenue :=
    fold_left addMonthly completedBookings (repeat 0 6) in
  let serviceStats := fold_left addService completedBookings [] in
  let topServices :=
    JS.slice0 5
      (JS.sort byRevenueDesc (map toTopService (JS.entries serviceStats))) in
  {| totalRevenue := totalRevenue;
     totalBookings := totalBookings;
     averageRating := 4.8;
     completionRate := completionRate;
     monthlyRevenue := monthlyRevenue;
     topServices := topServices |}.

Record Screen : Type := {
  analyticsData : AnalyticsData;
  loading : bool
}.

Definition initialData : AnalyticsData :=
  {| totalRevenue := 0; totalBookings := 0; averageRating := 4.8;
     completionRate := 0; monthlyRevenue := []; topServices := [] |}.

(** [loadAnalyticsData]: [profile] is the signed-in profile's id and
    [reply] what the [bookings] query answers. *)
Definition loadAnalyticsData (profile : option string)
           (reply : Reply (list Booking)) (st : Screen) : Screen :=
  match profile with
  | None => st
  | Some _ =>
      match reply with
      | Threw => {| analyticsData := analyticsData st; loading := false |}
      | Returned _ (Some _) =>
          {| analyticsData := analyticsData st; loading := false |}
      | Returned bookings None =>
          {| analyticsData := computeAnalytics bookings; loading := false |}
      end
  end.

End Clock.

End Analytics.

(** ** The search screen: [filterServices] *)

Module Search.

Record Owner : Type := {
  full_name : string;
  avatar_url : option string
}.

Record Service : Type := {
  id : string;
  title : string;
  description : string;
  price_from : Q;
  price_to : option Q;
  location : string;
  max_guests : Z;
  profiles : option Owner
}.

(** The callback of the text search. *)
Definition matchesText (searchQuery : string) (service : Service) : bool :=
  JS.includes (JS.toLowerCase (title service)) (JS.toLowerCase searchQuery)
  || JS.includes (JS.toLowerCase (description service))
                 (JS.toLowerCase searchQuery)
  || JS.includes (JS.toLowerCase (location service))
                 (JS.toLowerCase searchQuery)
  || match profiles service with
     | Some p => JS.includes (JS.toLowerCase (full_name p))
                             (JS.toLowerCase searchQuery)
     | None => false
     end.

Definition isBudget (service : Service) : bool :=
  Qle_bool (price_from service) 500.

Definition isPremium (service : Service) : bool :=
  Qle_bool 800 (price_from service).

(** [filterServices]: the list handed to [setFilteredServices]. *)
Definition filterServices (searchQuery : string)
           (selectedFilters : list string) (services : list Service)
  : list Service :=
  let filtered := services in
  let filtered :=
    if JS.trimIsTruthy searchQuery
    then filter (matchesText searchQuery) filtered
    else filtered in
  let filtered :=
    if JS.array_includes selectedFilters "budget"
    then filter isBudget filtered
    else filtered in
  let filtered :=
    if JS.array_includes selectedFilters "premium"
    then filter isPremium filtered
    else filtered in
  filtered.

Definition toggleFilter (filterKey : string) (prev : list string)
  : list string :=
  if JS.array_includes prev filterKey
  then filter (fun f => negb (String.eqb f filterKey)) prev
  else prev ++ [filterKey].

End Search.

(** ** What a booking card offers to press *)

Module UI.

(** The handlers the screens attach to buttons. *)
Inductive Press : Type :=
| UpdateBookingStatus (bookingId : string) (status : string).

(** A [Button]: [onPress] is [None] when the element has no handler. *)
Record Button : Type := {
  label : string;
  mode : string;
  onPress : option Press
}.

End UI.

(** ** The client's bookings screen *)

Module ClientBookings.

Import Schema.

Inductive Tab : Type := upcoming | past.

(** [isUpcoming]: [now] is the reading of [new Date()]. *)
Definition isUpcoming (now : Z) (date : string) : bool :=
  JS.ge (JS.Date_parse date) (Some now).

Definition isStatus (s : booking_status) (booking : Booking) : bool :=
  status_eqb (status booking) s.

(** The callback of [bookings.filter] that computes [filteredBookings]. *)
Definition inTab (activeTab : Tab) (now : Z) (booking : Booking) : bool :=
  match activeTab with
  | upcoming =>
      isUpcoming now (event_date booking)
      && negb (isStatus completed booking)
      && negb (isStatus cancelled booking)
  | past =>
      negb (isUpcoming now (event_date booking))
      || isStatus completed booking
      || isStatus cancelled booking
  end.

(** [filteredBookings]; the clock is read once for each booking:
    [clock n] is its [n]-th reading. *)
Fixpoint filteredBookingsFrom (activeTab : Tab) (clock : nat -> Z) (n : nat)
         (bookings : list Booking) : list Booking :=
  match bookings with
  | [] => []
  | b :: rest =>
      if inTab activeTab (clock n) b
      then b :: filteredBookingsFrom activeTab clock (S n) rest
      else filteredBookingsFrom activeTab clock (S n) rest
  end.

Definition filteredBookings (activeTab : Tab) (clock : nat -> Z)
           (bookings : list Booking) : list Booking :=
  filteredBookingsFrom activeTab clock 0 bookings.

(** The buttons of [renderBookingCard]. *)
Definition cardButtons (item : Booking) : list UI.Button :=
  if isStatus pending item
  then [ {| UI.label := "Cancelar"; UI.mode := "outlined";
            UI.onPress := None |};
         {| UI.label := "Contatar"; UI.mode := "contained";
            UI.onPress := None |} ]
  else [].

End ClientBookings.

(** ** The store of bookings *)

Module Store.

Import Schema.

Definition Table : Type := list Booking.

Definition hasId (bookingId : string) (row : Booking) : bool :=
  String.eqb (id row) bookingId.

Definition setStatus (s : booking_status) (now : Z) (row : Booking)
  : Booking :=
  {| id := id row;
     client_id := client_id row;
     professional_id := professional_id row;
     service_id := service_id row;
     event_date := event_date row;
     event_time := event_time row;
     guests_count := guests_count row;
     location := location row;
     status := s;
     total_price := total_price row;
     notes := notes row;
     created_at := created_at row;
     updated_at := now;
     services := services row;
     profiles := profiles row |}.

(** Modelled from the spec: the store's write operation (section 6),
    which this repository calls and does not implement.  It updates the
    status and the update time stamp of the row with the given id, is
    rejected when no row has that id, and does not look at the
    transition table.  The column is of the enum type of the migration,
    so a text that names no status is rejected as well. *)
Definition update (table : Table) (bookingId : string) (status : string)
           (updated_at : Z) : option string * Table :=
  match status_of_string status with
  | None => (Some "invalid input value for enum booking_status"%string, table)
  | Some s =>
      if existsb (hasId bookingId) table
      then (None,
            map (fun row => if hasId bookingId row
                            then setStatus s updated_at row else row)
                table)
      else (Some "no such booking"%string, table)
  end.

(** [ORDER BY key]: rows in ascending order of an integer key, rows with
    equal keys in table order. *)
Definition orderBy (key : Booking -> Z) (ascending : bool) (rows : Table)
  : Table :=
  JS.sort (fun a b => if ascending then inject_Z (key a - key b)
                      else inject_Z (key b - key a))
          rows.

Definition ofProfessional (profileId : string) (row : Booking) : bool :=
  String.eqb (professional_id row) profileId.

(** The day number of an [event_date]. *)
Definition eventDay (row : Booking) : Z :=
  match JS.Date_parse (event_date row) with
  | Some t => JS.Day t
  | None => 0%Z
  end.

End Store.

(** ** The professional's bookings screen *)

Module ProfessionalBookings.

Import Schema.

(** What a request to the store meets on its way. *)
Inductive Network : Type :=
| Delivered
| Refused (error : string)
| Failed.

(** The store, the screen's [bookings] state and the console. *)
Record World : Type := {
  table : Store.Table;
  bookings : list Booking;
  console : list string
}.

(** The query of [loadBookings]. *)
Definition selectBookings (profileId : string) (t : Store.Table)
  : list Booking :=
  Store.orderBy Store.eventDay true
                (filter (Store.ofProfessional profileId) t).

Definition loadBookings (profile : option string) (net : Network)
           (w : World) : World :=
  match profile with
  | None => w
  | Some profileId =>
      match net with
      | Delivered =>
          {| table := table w;
             bookings := selectBookings profileId (table w);
             console := console w |}
      | Refused _ | Failed =>
          {| table := table w;
             bookings := bookings w;
             console := console w ++ ["Error loading bookings:"%string] |}
      end
  end.

(** [updateBookingStatus]: [now] is the reading of [new Date()],
    [net] what the write meets and [net'] what the refresh meets. *)
Definition updateBookingStatus (profile : option string) (now : Z)
           (net net' : Network) (bookingId : string) (status : string)
           (w : World) : World :=
  let logged :=
    {| table := table w;
       bookings := bookings w;
       console := console w ++ ["Error updating booking:"%string] |} in
  match net with
  | Failed => logged
  | Refused _ => logged
  | Delivered =>
      match Store.update (table w) bookingId status now with
      | (Some _, _) => logged
      | (None, table') =>
          loadBookings profile net'
                       {| table := table';
                          bookings := bookings w;
                          console := console w |}
      end
  end.

(** The buttons of [renderBookingCard]. *)
Definition cardButtons (item : Booking) : list UI.Button :=
  (if status_eqb (status item) pending
   then [ {| UI.label := "Recusar"; UI.mode := "outlined";
             UI.onPress :=
               Some (UI.UpdateBookingStatus (id item) "cancelled") |};
          {| UI.label := "Aceitar"; UI.mode := "contained";
             UI.onPress :=
               Some (UI.UpdateBookingStatus (id item) "confirmed") |} ]
   else [])
  ++
  (if status_eqb (status item) confirmed
   then [ {| UI.label := "Finalizar"; UI.mode := "contained";
             UI.onPress :=
               Some (UI.UpdateBookingStatus (id item) "completed") |} ]
   else []).

(** Pressing a button of a card. *)
Definition press (profile : option string) (now : Z) (net net' : Network)
           (b : UI.Button) (w : World) : World :=
  match UI.onPress b with
  | Some (UI.UpdateBookingStatus bookingId status) =>
      updateBookingStatus profile now net net' bookingId status w
  | None => w
  end.

End ProfessionalBookings.

(** ** The professional's home screen: [loadDashboardData] *)

Module Dashboard.

Import Schema.
Local Open Scope Q_scope.

Record DashboardStats : Type := {
  totalBookings : Z;
  pendingBookings : Z;
  monthlyRevenue : Q;
  averageRating : Q
}.

(** The query: the professional's bookings, newest first, five at most. *)
Definition recentQuery (profileId : string) (t : Store.Table)
  : list Booking :=
  firstn 5 (Store.orderBy created_at false
                          (filter (Store.ofProfessional profileId) t)).

Definition isPending (b : Booking) : bool := status_eqb (status b) pending.

Section Clock.

Variable tz : Z -> Z.
(** The two readings of [new Date()]. *)
Variables now1 now2 : Z.

(** The callback of the revenue filter. *)
Definition inCurrentMonth (b : Booking) : bool :=
  let currentMonth := JS.getMonth tz (Some now1) in
  let currentYear := JS.getFullYear tz (Some now2) in
  let bookingDate := JS.Date_parse (event_date b) in
  JS.strictEq (JS.getMonth tz bookingDate) currentMonth
  && JS.strictEq (JS.getFullYear tz bookingDate) currentYear
  && (status_eqb (status b) confirmed || status_eqb (status b) completed).

(** [x || 0] on a number that is not NaN. *)
Definition orZero (x : Q) : Q := if Qeq_bool x 0 then 0 else x.

Definition computeStats (bookings : option (list Booking))
  : DashboardStats :=
  {| totalBookings :=
       match bookings with Some l => Analytics.len l | None => 0%Z end;
     pendingBookings :=
       match bookings with
       | Some l => Analytics.len (filter isPending l)
       | None => 0%Z
       end;
     monthlyRevenue :=
       match bookings with
       | Some l => orZero (Analytics.sumPrices (filter inCurrentMonth l))
       | None => 0
       end;
     averageRating := 4.8 |}.

Record Screen : Type := {
  stats : DashboardStats;
  recentBookings : list Booking;
  loading : bool
}.

Definition loadDashboardData (profile : option string)
           (reply : Reply (list Booking)) (st : Screen) : Screen :=
  match profile with
  | None => st
  | Some _ =>
      match reply with
      | Threw | Returned _ (Some _) =>
          {| stats := stats st; recentBookings := recentBookings st;
             loading := false |}
      | Returned bookings None =>
          {| stats := computeStats bookings;
             recentBookings :=
               match bookings with Some l => l | None => [] end;
             loading := false |}
      end
  end.

(** The reply of a store that holds [t] and serves the query. *)
Definition served (profileId : string) (t : Store.Table)
  : Reply (list Booking) :=
  Returned (Some (recentQuery profileId t)) None.

End Clock.

End Dashboard.

(** ** The lifecycle of the specification *)

Module Lifecycle.

Import Schema.

Inductive Actor : Type := client | professional.

(** Modelled from the spec: the table of legal transitions between
    stored statuses (section 4.1) with the actors allowed to trigger
    each.  The repository has no such table. *)
Definition allowedActors (from to : booking_status) : list Actor :=
  match from, to with
  | pending, confirmed => [professional]
  | pending, cancelled => [professional; client]
  | confirmed, completed => [professional]
  | confirmed, cancelled => [professional; client]
  | _, _ => []
  end.

Definition legal (from to : booking_status) : bool :=
  match allowedActors from to with [] => false | _ => true end.

End Lifecycle.

(** ** The quantities the specification speaks of *)

Module Spec.

Import Schema.
Local Open Scope Q_scope.

(** The sum of a list of numbers. *)
Fixpoint sumQ (l : list Q) : Q :=
  match l with
  | [] => 0
  | x :: l' => x + sumQ l'
  end.

(** How many records satisfy [p]. *)
Fixpoint countIf (A : Type) (p : A -> bool) (l : list A) : Z :=
  match l with
  | [] => 0%Z
  | x :: l' => ((if p x then 1 else 0) + countIf p l')%Z
  end.

Definition hasStatus (s : booking_status) (b : Booking) : bool :=
  status_eqb (status b) s.

(** What a record adds to the revenue: its price when it is completed,
    nothing otherwise. *)
Definition revenueShare (b : Booking) : Q :=
  match status b with
  | completed => total_price b
  | pending | confirmed | cancelled => 0
  end.

(** The month difference [d] of a record selects bucket [i] of the
    six-month view: [0 <= d < 6] and [i = 5 - d]. *)
Definition hitsBucket (tz : Z -> Z) (now : Z) (i : nat) (b : Booking)
  : bool :=
  match Analytics.monthDiff tz now b with
  | Some d => ((0 <=? d) && (d <? 6) && (Z.of_nat i =? 5 - d))%Z
  | None => false
  end.

(** A record is added to bucket [i]: it is completed and its month
    difference selects [i]. *)
Definition inBucket (tz : Z -> Z) (now : Z) (i : nat) (b : Booking) : bool :=
  hasStatus completed b && hitsBucket tz now i b.

(** The completed records of a service title. *)
Definition ofTitle (t : string) (b : Booking) : bool :=
  hasStatus completed b && String.eqb (Analytics.serviceTitle b) t.

(** The entry of a title after one more completed record of it. *)
Definition bump (s : option Analytics.Stat.t) (b : Booking)
  : Analytics.Stat.t :=
  match s with
  | Some s =>
      {| Analytics.Stat.bookings := Analytics.Stat.bookings s + 1;
         Analytics.Stat.revenue := Analytics.Stat.revenue s + total_price b |}
  | None =>
      {| Analytics.Stat.bookings := 0 + 1;
         Analytics.Stat.revenue := 0 + total_price b |}
  end.

(** A record counts for key [k]: [k] is its service title and no name of
    [Object.prototype]. *)
Definition countsFor (k : string) (b : Booking) : bool :=
  String.eqb (Analytics.serviceTitle b) k && negb (JS.inherited k).

(** The entry of key [k] across one turn of the loop over the completed
    records. *)
Definition tally (k : string) (s : option Analytics.Stat.t) (b : Booking)
  : option Analytics.Stat.t :=
  if countsFor k b then Some (bump s b) else s.

Definition bookingsOf (s : option Analytics.Stat.t) : Z :=
  match s with Some s => Analytics.Stat.bookings s | None => 0%Z end.

Definition revenueOf (s : option Analytics.Stat.t) : Q :=
  match s with Some s => Analytics.Stat.revenue s | None => 0 end.

(** The dictionary has no two entries of one key and no entry under a
    name of [Object.prototype]. *)
Definition wellKeyed (o : JS.Obj Analytics.Stat.t) : Prop :=
  NoDup (map fst o)
  /\ forall k, In k (map fst o) -> JS.inherited k = false.

(** Sorted by revenue, largest first. *)
Definition revenueDesc (a b : Analytics.TopService) : Prop :=
  Analytics.revenue b <= Analytics.revenue a.

(** A query of white space only (the empty one included). *)
Fixpoint whitespaceOnly (q : string) : bool :=
  match q with
  | EmptyString => true
  | String c q' => JS.isWhiteSpace c && whitespaceOnly q'
  end.

(** The conjunction the search filter applies: the text predicate unless
    the query is blank, and the predicate of each selected toggle that
    has one. *)
Definition accepts (q : string) (toggles : list string)
           (s : Search.Service) : bool :=
  (whitespaceOnly q || Search.matchesText q s)
  && implb (JS.array_includes toggles "budget") (Search.isBudget s)
  && implb (JS.array_includes toggles "premium") (Search.isPremium s).

(** The midnight (UTC) that starts the event day of a record, read in
    local time, falls in the month that local time has at [now1] and
    the year it has at [now2], and the record is confirmed or
    completed. *)
Definition bookedThisMonth (tz : Z -> Z) (now1 now2 : Z) (b : Booking)
  : bool :=
  match JS.Date_parse (event_date b) with
  | Some t =>
      (JS.MonthFromTime (JS.LocalTime tz t)
       =? JS.MonthFromTime (JS.LocalTime tz now1))%Z
      && (JS.YearFromTime (JS.LocalTime tz t)
          =? JS.YearFromTime (JS.LocalTime tz now2))%Z
      && match status b with
         | confirmed | completed => true
         | pending | cancelled => false
         end
  | None => false
  end.

(** Created no later than. *)
Definition newestFirst (a b : Booking) : Prop :=
  (created_at b <= created_at a)%Z.

(** A list is a subsequence of another: the same elements in the same
    order, some left out. *)
Inductive Subseq (A : Type) : list A -> list A -> Prop :=
| Subseq_nil : Subseq [] []
| Subseq_skip : forall x l1 l2, Subseq l1 l2 -> Subseq l1 (x :: l2)
| Subseq_keep : forall x l1 l2, Subseq l1 l2 -> Subseq (x :: l1) (x :: l2).

End Spec.

(** ** Sample records *)

Module Sample.

Import Schema.

Definition utc : Z -> Z := fun _ => 0%Z.

(** Brasília time: three hours behind UTC. *)
Definition brt : Z -> Z := fun _ => (-10800000)%Z.

(** 2025-03-10T12:00:00Z. *)
Definition noon_2025_03_10 : Z := 1741608000000%Z.

Definition booking (i date : string) (s : booking_status) (price : Q)
           (service : option string) (created : Z) : Booking :=
  {| id := i;
     client_id := "client-1";
     professional_id := "pro-1";
     service_id := "service-1";
     event_date := date;
     event_time := "12:00:00";
     guests_count := 20;
     location := "Porto Alegre";
     status := s;
     total_price := price;
     notes := None;
     created_at := created;
     updated_at := created;
     services :=
       option_map (fun t => {| title := t; duration_hours := 4 |}) service;
     profiles := None |}.

Definition service (i : string) (price : Q) : Search.Service :=
  {| Search.id := i;
     Search.title := "Churrasco completo";
     Search.description := "Carnes nobres e acompanhamentos";
     Search.price_from := price;
     Search.price_to := None;
     Search.location := "Curitiba";
     Search.max_guests := 50;
     Search.profiles := None |}.

End Sample.

(** ** What the analytics screen draws *)

Module AnalyticsView.

Local Open Scope Q_scope.

Definition months : list string :=
  [ "Jan"; "Fev"; "Mar"; "Abr"; "Mai"; "Jun";
    "Jul"; "Ago"; "Set"; "Out"; "Nov"; "Dez" ]%string.

(** [arr[i]] for an integer [i]: [None] is [undefined]. *)
Definition at_index (A : Type) (arr : list A) (i : Z) : option A :=
  if (i <? 0)%Z then None else nth_error arr (Z.to_nat i).

(** [getMonthName]: [now] is the reading of [new Date()]; [%] is the
    remainder that takes the sign of the dividend. *)
Definition getMonthName (tz : Z -> Z) (now : Z) (monthIndex : Z)
  : option string :=
  let currentMonth := JS.MonthFromTime (JS.LocalTime tz now) in
  let targetMonth := Z.rem (currentMonth - (5 - monthIndex) + 12) 12 in
  at_index months targetMonth.

(** [Math.max(...arr)]: [None] is the [-Infinity] of the empty array. *)
Fixpoint Math_max (arr : list Q) : option Q :=
  match arr with
  | [] => None
  | x :: arr' =>
      match Math_max arr' with
      | None => Some x
      | Some m => Some (if Qle_bool m x then x else m)
      end
  end.

(** The height, in percent, of the bar of [revenue] in the chart of
    [monthlyRevenue]. *)
Definition barHeight (monthlyRevenue : list Q) (revenue : Q) : Q :=
  match Math_max monthlyRevenue with
  | Some maxRevenue =>
      if negb (Qle_bool maxRevenue 0) then revenue / maxRevenue * 100 else 0
  | None => 0
  end.

(** The heights of the bars, one for each entry, in order. *)
Definition barHeights (monthlyRevenue : list Q) : list Q :=
  map (barHeight monthlyRevenue) monthlyRevenue.

End AnalyticsView.

(** ** What the six-month chart counts *)

Module Chart.

Import Schema.

(** The event month of a record, as the aggregator reads it. *)
Definition eventMonth (tz : Z -> Z) (b : Booking) : option Z :=
  JS.getMonth tz (JS.Date_parse (event_date b)).

End Chart.

(** ** The columns a status update leaves alone *)

Module Columns.

Import Schema.

(** Everything of a row but its status and its update time stamp. *)
Definition fixed (row : Booking) :=
  (id row, client_id row, professional_id row, service_id row,
   event_date row, event_time row, guests_count row, location row,
   total_price row, notes row, created_at row, services row, profiles row).

End Columns.

(** ** Formatting *)

Module Format.

(** [formatTime]: [time.substring(0, 5)]. *)
Definition formatTime (time : string) : string := String.substring 0 5 time.

(** [s.split(c)] for a separator of one character. *)
Fixpoint split (c : ascii) (s : string) : list string :=
  match s with
  | EmptyString => [EmptyString]
  | String a s' =>
      if Ascii.eqb a c then EmptyString :: split c s'
      else match split c s' with
           | h :: t => String a h :: t
           | [] => [String a EmptyString]
           end
  end.

(** [profile?.full_name?.split(' ')[0]] of the greeting: [None] when
    there is no profile or no name. *)
Definition firstName (full_name : option string) : option string :=
  match full_name with
  | Some n => hd_error (split " "%char n)
  | None => None
  end.

End Format.

(** ** The avatar of a profile *)

Module Avatar.

Inductive Source : Type := camera | gallery.

Record Asset : Type := {
  uri : string;
  fileSize : option Z
}.

Record PickerResult : Type := {
  canceled : bool;
  assets : list Asset
}.

(** What the two functions do, as seen from outside, in order. *)
Inductive Effect : Type :=
| Alert (title message : string)
| ConsoleError (label : string)
| SetUploadingAvatar (value : bool)
| StorageUpload (bucket name uri type : string)
| ProfileUpdate (id avatar_url : string)
| RefreshProfile.

(** How an awaited request ends: [Failed] is a reply with an [error] or
    a rejection, [message] its [error.message] ([None] when it has
    none). *)
Inductive Outcome : Type :=
| Done
| Failed (message : option string).

(** What [uploadAvatar] finds around it: the user id of [session?.user]
    ([None] without a session or a user), the outcomes of the storage
    upload, of the update of the profile row and of [refreshProfile],
    the [publicUrl] of [publicUrlData] ([None] when that is missing) and
    the reading [time] of [new Date().getTime()]. *)
Record Backend : Type := {
  session : option string;
  upload : Outcome;
  publicUrl : option string;
  time : Z;
  dbUpdate : Outcome;
  refresh : Outcome
}.

Definition sizeLimit : Z := 50 * 1024 * 1024.

(** [uri.split('.').pop()?.toLowerCase() || 'jpg']. *)
Definition fileExt (uri : string) : string :=
  let ext := JS.toLowerCase (last (Format.split "."%char uri) EmptyString) in
  if JS.truthy ext then ext else "jpg"%string.

(** The name the avatar is stored under: [`${id}.${fileExt}`]. *)
Definition fileName (userId uri : string) : string :=
  (userId ++ "." ++ fileExt uri)%string.

(** A number inside a template literal, for an integer. *)
Definition numberToString (n : Z) : string :=
  NilZero.string_of_int (Z.to_int n).

(** [error.message || 'Não foi possível atualizar o avatar.']. *)
Definition messageOf (message : option string) : string :=
  match message with
  | Some m => if JS.truthy m then m else "Não foi possível atualizar o avatar."
  | None => "Não foi possível atualizar o avatar."
  end%string.

(** The [catch] and [finally] blocks of [uploadAvatar]. *)
Definition caughtUpload (message : option string) : list Effect :=
  [ ConsoleError "Erro ao fazer upload do avatar:";
    Alert "Erro" (messageOf message);
    SetUploadingAvatar false ].

(** [uploadAvatar]: a request that was issued is an effect, however it
    ends. *)
Definition uploadAvatar (env : Backend) (uri : string) : list Effect :=
  match session env with
  | None => []
  | Some userId =>
      let fileExt := fileExt uri in
      let fileName := fileName userId uri in
      SetUploadingAvatar true
      :: StorageUpload "avatars" fileName uri ("image/" ++ fileExt)
      :: match upload env with
         | Failed message => caughtUpload message
         | Done =>
             match publicUrl env with
             | None =>
                 caughtUpload
                   (Some "Não foi possível obter a URL pública do avatar.")
             | Some url =>
                 let finalUrl := url ++ "?t=" ++ numberToString (time env) in
                 ProfileUpdate userId finalUrl
                 :: match dbUpdate env with
                    | Failed message => caughtUpload message
                    | Done =>
                        RefreshProfile
                        :: match refresh env with
                           | Failed message => caughtUpload message
                           | Done =>
                               [ Alert "Sucesso"
                                       "Avatar atualizado com sucesso!";
                                 SetUploadingAvatar false ]
                           end
                    end
             end
         end
  end%string.

(** [handleUpdateAvatar]: [permission] is the status the permission
    request answers and [picked] what the camera or the gallery returns;
    [None] is a call that threw.  An asset list without a first element
    makes the read of its size throw.  [uploadAvatar] catches what its
    requests throw, so nothing of it reaches the [catch] here. *)
Definition handleUpdateAvatar (source : Source) (permission : option string)
           (picked : option PickerResult) (env : Backend) : list Effect :=
  let caught :=
    [ ConsoleError "Erro ao selecionar imagem:";
      Alert "Erro" "Não foi possível selecionar a imagem." ] in
  match permission with
  | None => caught
  | Some status =>
      if negb (String.eqb status "granted")
      then [ Alert "Permissão necessária"
                   match source with
                   | camera =>
                       "É necessário permitir o acesso à câmera para tirar uma foto."
                   | gallery =>
                       "É necessário permitir o acesso à galeria para escolher uma foto."
                   end ]
      else
        match picked with
        | None => caught
        | Some result =>
            if canceled result then []
            else
              match assets result with
              | [] => caught
              | asset :: _ =>
                  let fileSize :=
                    match fileSize asset with
                    | Some n => n
                    | None => 0%Z
                    end in
                  if (fileSize >? sizeLimit)%Z
                  then [ Alert "Arquivo muito grande"
                               "O tamanho da imagem não pode exceder 50MB." ]
                  else uploadAvatar env (uri asset)
              end
        end
  end.

Definition isAlert (e : Effect) : bool :=
  match e with Alert _ _ => true | _ => false end.

(** An alert or a console line. *)
Definition isNotice (e : Effect) : bool :=
  match e with Alert _ _ | ConsoleError _ => true | _ => false end.

(** The checks of [handleUpdateAvatar] let the picture of uri [u]
    through: access was granted, the picker returned a result that is
    not cancelled, [u] is the uri of its first asset, and the size of
    that asset, taken as 0 when unknown, is within the limit. *)
Definition handsOn (permission : option string)
           (picked : option PickerResult) (u : string) : Prop :=
  permission = Some "granted"%string
  /\ exists result asset rest,
       picked = Some result
       /\ canceled result = false
       /\ assets result = asset :: rest
       /\ uri asset = u
       /\ (match fileSize asset with
           | Some n => n
           | None => 0
           end <= 52428800)%Z.

End Avatar.

(** ** The tabs of the professional's bookings screen *)

Module ProfessionalTabs.

Import Schema.

Inductive Tab : Type := pendingTab | confirmedTab | allTab.

(** The callback of [bookings.filter]. *)
Definition inTab (activeTab : Tab) (booking : Booking) : bool :=
  match activeTab with
  | allTab => true
  | pendingTab => status_eqb (status booking) pending
  | confirmedTab => status_eqb (status booking) confirmed
  end.

Definition filteredBookings (activeTab : Tab) (bookings : list Booking)
  : list Booking :=
  filter (inTab activeTab) bookings.

End ProfessionalTabs.

(** ** The client's bookings, as loaded *)

Module ClientLoad.

Import Schema.

Definition ofClient (profileId : string) (row : Booking) : bool :=
  String.eqb (client_id row) profileId.

(** The query of the client's [loadBookings]: latest event first. *)
Definition selectBookings (profileId : string) (t : Store.Table)
  : list Booking :=
  Store.orderBy Store.eventDay false (filter (ofClient profileId) t).

(** The screen's [bookings] state after [loadBookings]: [served] tells
    whether the query answered with data. *)
Definition loadBookings (profile : option string) (served : bool)
           (t : Store.Table) (bookings : list Booking) : list Booking :=
  match profile with
  | None => bookings
  | Some profileId => if served then selectBookings profileId t else bookings
  end.

End ClientLoad.

(** ** Dates as the calendar has them *)

Module Calendar.

Import Schema.
Local Open Scope Z_scope.

(** Modelled from the spec: the day an event date names, as a day
    number.  The text [YYYY-MM-DD] names a day of the calendar, with no
    clock and no time zone to it. *)
Definition eventDay (date : string) : option Z :=
  option_map JS.Day (JS.Date_parse date).

(** Modelled from the spec: the year and the month (0 is January) of the
    day an event date names. *)
Definition eventYearMonth (date : string) : option (Z * Z) :=
  option_map (fun t => (JS.YearFromTime t, JS.MonthFromTime t))
             (JS.Date_parse date).

(** Modelled from the spec: the current date, the day the local
    calendar shows at the instant [now]. *)
Definition today (tz : Z -> Z) (now : Z) : Z := JS.Day (JS.LocalTime tz now).

(** Modelled from the spec: the current year and month. *)
Definition currentYearMonth (tz : Z -> Z) (now : Z) : Z * Z :=
  (JS.YearFromTime (JS.LocalTime tz now),
   JS.MonthFromTime (JS.LocalTime tz now)).

(** Modelled from the spec: [(currentYear - eventYear) * 12 +
    (currentMonth - eventMonth)]. *)
Definition monthDiff (tz : Z -> Z) (now : Z) (date : string) : option Z :=
  match eventYearMonth date with
  | Some (eventYear, eventMonth) =>
      let '(currentYear, currentMonth) := currentYearMonth tz now in
      Some ((currentYear - eventYear) * 12 + (currentMonth - eventMonth))
  | None => None
  end.

(** Modelled from the spec: the event date is not before the current
    date. *)
Definition notBefore (tz : Z -> Z) (now : Z) (date : string) : bool :=
  match eventDay date with
  | Some d => today tz now <=? d
  | None => false
  end.

(** Modelled from the spec: a booking is upcoming when its event date is
    not before the current date and its status is neither completed nor
    cancelled. *)
Definition upcoming (tz : Z -> Z) (now : Z) (b : Booking) : bool :=
  notBefore tz now (event_date b)
  && match status b with
     | completed | cancelled => false
     | pending | confirmed => true
     end.

(** Modelled from the spec: the event date falls in the current calendar
    month. *)
Definition inCurrentMonth (tz : Z -> Z) (now : Z) (date : string) : bool :=
  match eventYearMonth date with
  | Some (eventYear, eventMonth) =>
      let '(currentYear, currentMonth) := currentYearMonth tz now in
      (eventYear =? currentYear) && (eventMonth =? currentMonth)
  | None => false
  end.

(** Modelled from the spec: a booking counts for the revenue of the
    month when its event date falls in the current calendar month and
    its status is confirmed or completed. *)
Definition countsThisMonth (tz : Z -> Z) (now : Z) (b : Booking) : bool :=
  inCurrentMonth tz now (event_date b)
  && match status b with
     | confirmed | completed => true
     | pending | cancelled => false
     end.

(** Local time is at UTC or east of it, by less than a day. *)
Definition eastOfUTC (tz : Z -> Z) : Prop :=
  forall t, 0 <= tz t < JS.msPerDay.

End Calendar.

(** ** The search, whatever lower-casing does *)

Module SearchLocale.

Import Search.

Section Locale.

(** [String.prototype.toLowerCase] and the truthiness of
    [String.prototype.trim]'s result. *)
Variable toLowerCase : string -> string.
Variable trimIsTruthy : string -> bool.

(** The callback of the text search. *)
Definition matchesText (searchQuery : string) (service : Service) : bool :=
  JS.includes (toLowerCase (title service)) (toLowerCase searchQuery)
  || JS.includes (toLowerCase (description service))
                 (toLowerCase searchQuery)
  || JS.includes (toLowerCase (location service))
                 (toLowerCase searchQuery)
  || match profiles service with
     | Some p => JS.includes (toLowerCase (full_name p))
                             (toLowerCase searchQuery)
     | None => false
     end.

(** [filterServices]: the list handed to [setFilteredServices]. *)
Definition filterServices (searchQuery : string)
           (selectedFilters : list string) (services : list Service)
  : list Service :=
  let filtered := services in
  let filtered :=
    if trimIsTruthy searchQuery
    then filter (matchesText searchQuery) filtered
    else filtered in
  let filtered :=
    if JS.array_includes selectedFilters "budget"
    then filter isBudget filtered
    else filtered in
  let filtered :=
    if JS.array_includes selectedFilters "premium"
    then filter isPremium filtered
    else filtered in
  filtered.

End Locale.

End SearchLocale.

(** * Properties *)

(** ** Sums of rationals *)

Section Sums.

Local Open Scope Q_scope.

Lemma fold_left_add_shift (A : Type) (f : A -> Q) (l : list A) (a : Q) :
  fold_left (fun sum b => sum + f b) l a == a + Spec.sumQ (map f l).
Proof.
  revert a; induction l as [|x l IH]; intro a; simpl.
  - ring.
  - rewrite IH. ring.
Qed.

Lemma sumPrices_sumQ (l : list Schema.Booking) :
  Analytics.sumPrices l == Spec.sumQ (map Schema.total_price l).
Proof.
  unfold Analytics.sumPrices. rewrite fold_left_add_shift. ring.
Qed.

Lemma sumQ_filter (A : Type) (p : A -> bool) (f : A -> Q) (l : list A) :
  Spec.sumQ (map f (filter p l))
  == Spec.sumQ (map (fun x => if p x then f x else 0) l).
Proof.
  induction l as [|x l IH]; simpl.
  - reflexivity.
  - destruct (p x); simpl; rewrite IH; ring.
Qed.

Lemma sumQ_ext (A : Type) (f g : A -> Q) (l : list A) :
  (forall x, f x == g x) ->
  Spec.sumQ (map f l) == Spec.sumQ (map g l).
Proof.
  intro H; induction l as [|x l IH]; simpl.
  - reflexivity.
  - rewrite IH, (H x). reflexivity.
Qed.

End Sums.

(** ** Total revenue and completion rate *)

Section AnalyticsTotals.

Import Schema.
Local Open Scope Q_scope.

Variable tz : Z -> Z.
Variable now : Z.

Lemma revenueShare_filter (b : Booking) :
  (if Analytics.isCompleted b then total_price b else 0)
  = Spec.revenueShare b.
Proof.
  unfold Analytics.isCompleted, Spec.revenueShare.
  destruct (status b); reflexivity.
Qed.

(** C3.  For every list of booking records the aggregator's
    [totalRevenue] is the sum over the records of their revenue shares:
    the [total_price] of a record whose status is completed, and 0 for a
    record that is pending, confirmed or cancelled.  It is computed as
    the running sum of [total_price] over the completed records alone. *)
Theorem totalRevenue_completed_only (l : list Booking) :
  Analytics.totalRevenue (Analytics.computeAnalytics tz now (Some l))
  == Spec.sumQ (map Spec.revenueShare l)
  /\ Analytics.totalRevenue (Analytics.computeAnalytics tz now (Some l))
     = Analytics.sumPrices (filter (Spec.hasStatus completed) l).
Proof.
  split; [|reflexivity].
  cbn [Analytics.computeAnalytics Analytics.totalRevenue].
  rewrite sumPrices_sumQ, sumQ_filter.
  apply sumQ_ext. intro b. rewrite revenueShare_filter. reflexivity.
Qed.

Lemma len_filter_countIf (A : Type) (p : A -> bool) (l : list A) :
  Analytics.len (filter p l) = Spec.countIf p l.
Proof.
  unfold Analytics.len. induction l as [|x l IH]; simpl.
  - reflexivity.
  - destruct (p x); simpl List.length; lia.
Qed.

Lemma countIf_bounds (A : Type) (p : A -> bool) (l : list A) :
  (0 <= Spec.countIf p l <= Analytics.len l)%Z.
Proof.
  unfold Analytics.len. induction l as [|x l IH]; simpl Spec.countIf.
  - simpl. lia.
  - simpl List.length. destruct (p x); lia.
Qed.

Lemma percentage_bounds (c t : Z) :
  (0 <= c <= t)%Z -> (0 < t)%Z ->
  0 <= inject_Z c / inject_Z t * 100 /\ inject_Z c / inject_Z t * 100 <= 100.
Proof.
  intros Hc Ht.
  assert (Ht' : 0 < inject_Z t).
  { change 0 with (inject_Z 0). rewrite <- Zlt_Qlt. exact Ht. }
  assert (H0 : 0 <= inject_Z c / inject_Z t).
  { apply Qle_shift_div_l; [exact Ht'|].
    rewrite Qmult_0_l. change 0 with (inject_Z 0).
    rewrite <- Zle_Qle. lia. }
  assert (H1 : inject_Z c / inject_Z t <= 1).
  { apply Qle_shift_div_r; [exact Ht'|].
    rewrite Qmult_1_l. rewrite <- Zle_Qle. lia. }
  split.
  - apply Qmult_le_0_compat; [exact H0|discriminate].
  - setoid_replace 100 with (1 * 100) at 2 by ring.
    apply Qmult_le_compat_r; [exact H1|discriminate].
Qed.

(** C4.  For every list of booking records the aggregator's
    [completionRate] is [completedCount / totalBookings * 100] when the
    list is not empty and 0 when it is empty (no division takes place
    then), and it lies between 0 and 100.  It is 0 as well when the
    query returns no list at all. *)
Theorem completionRate_formula_and_bounds (l : list Booking) :
  let rate :=
    Analytics.completionRate (Analytics.computeAnalytics tz now (Some l)) in
  rate = match l with
         | [] => 0
         | _ :: _ =>
             inject_Z (Spec.countIf (Spec.hasStatus completed) l)
             / inject_Z (Analytics.totalBookings
                           (Analytics.computeAnalytics tz now (Some l)))
             * 100
         end
  /\ Analytics.totalBookings (Analytics.computeAnalytics tz now (Some l))
     = Z.of_nat (List.length l)
  /\ 0 <= rate /\ rate <= 100
  /\ Analytics.completionRate (Analytics.computeAnalytics tz now None) = 0.
Proof.
  cbn [Analytics.computeAnalytics Analytics.completionRate
       Analytics.totalBookings].
  rewrite (len_filter_countIf Analytics.isCompleted l).
  change Analytics.isCompleted with (Spec.hasStatus completed).
  pose proof (countIf_bounds (Spec.hasStatus completed) l) as Hb.
  destruct l as [|b l].
  - cbn. repeat split; discriminate.
  - assert (Hpos : (0 < Analytics.len (b :: l))%Z).
    { unfold Analytics.len. simpl List.length. lia. }
    assert (Hgt : (Analytics.len (b :: l) >? 0)%Z = true) by lia.
    rewrite Hgt.
    destruct (percentage_bounds Hb Hpos) as [H0 H1].
    repeat split; assumption.
Qed.

End AnalyticsTotals.

(** ** The six monthly buckets *)

Section MonthlyRevenue.

Import Schema.
Local Open Scope Q_scope.

Variable tz : Z -> Z.
Variable now : Z.

Lemma addAt_length (n : nat) (v : Q) (arr : list Q) :
  List.length (Analytics.addAt n v arr) = List.length arr.
Proof.
  revert n; induction arr as [|x arr IH]; intros [|n]; simpl; auto.
Qed.

Lemma addAt_nth (n i : nat) (v : Q) (arr : list Q) :
  (i < List.length arr)%nat ->
  nth i (Analytics.addAt n v arr) 0
  = if Nat.eqb i n then nth i arr 0 + v else nth i arr 0.
Proof.
  revert n i; induction arr as [|x arr IH]; intros n i Hi; simpl in Hi.
  - lia.
  - destruct n as [|n], i as [|i]; simpl; try reflexivity.
    apply IH. lia.
Qed.

Lemma addMonthly_length (arr : list Q) (b : Booking) :
  List.length (Analytics.addMonthly tz now arr b) = List.length arr.
Proof.
  unfold Analytics.addMonthly.
  destruct (JS.ge _ _ && JS.lt _ _)%bool; [|reflexivity].
  destruct (Analytics.monthDiff tz now b); [apply addAt_length|reflexivity].
Qed.

Lemma addMonthly_nth (arr : list Q) (b : Booking) (i : nat) :
  (i < List.length arr)%nat ->
  nth i (Analytics.addMonthly tz now arr b) 0
  = if Spec.hitsBucket tz now i b then nth i arr 0 + total_price b
    else nth i arr 0.
Proof.
  intro Hi. unfold Analytics.addMonthly, Spec.hitsBucket.
  destruct (Analytics.monthDiff tz now b) as [d|]; [|reflexivity].
  unfold JS.ge, JS.lt, JS.cmp2.
  replace (d >=? 0)%Z with (0 <=? d)%Z by lia.
  destruct (0 <=? d)%Z eqn:H0; [|reflexivity].
  destruct (d <? 6)%Z eqn:H6; [|reflexivity].
  cbn [andb]. rewrite addAt_nth by exact Hi.
  replace (Nat.eqb i (Z.to_nat (5 - d))) with (Z.of_nat i =? 5 - d)%Z;
    [reflexivity|].
  destruct (Z.eqb_spec (Z.of_nat i) (5 - d)) as [E|E];
    destruct (Nat.eqb_spec i (Z.to_nat (5 - d))) as [E'|E'];
    try reflexivity; lia.
Qed.

Lemma fold_addMonthly_length (l : list Booking) (arr : list Q) :
  List.length (fold_left (Analytics.addMonthly tz now) l arr)
  = List.length arr.
Proof.
  revert arr; induction l as [|b l IH]; intro arr; simpl.
  - reflexivity.
  - rewrite IH. apply addMonthly_length.
Qed.

Lemma fold_addMonthly_nth (l : list Booking) (arr : list Q) (i : nat) :
  (i < List.length arr)%nat ->
  nth i (fold_left (Analytics.addMonthly tz now) l arr) 0
  = fold_left (fun sum b => sum + total_price b)
              (filter (Spec.hitsBucket tz now i) l) (nth i arr 0).
Proof.
  revert arr; induction l as [|b l IH]; intros arr Hi; simpl.
  - reflexivity.
  - rewrite IH by (rewrite addMonthly_length; exact Hi).
    rewrite addMonthly_nth by exact Hi.
    destruct (Spec.hitsBucket tz now i b); reflexivity.
Qed.

Lemma filter_filter (A : Type) (p q : A -> bool) (l : list A) :
  filter p (filter q l) = filter (fun x => q x && p x)%bool l.
Proof.
  induction l as [|x l IH]; simpl.
  - reflexivity.
  - destruct (q x); simpl; [destruct (p x)|]; rewrite IH; reflexivity.
Qed.

Lemma eq_map_seq (A : Type) (d : A) (f : nat -> A) (l : list A) (n : nat) :
  List.length l = n ->
  (forall i, (i < n)%nat -> nth i l d = f i) ->
  l = map f (seq 0 n).
Proof.
  intros Hlen Hnth.
  apply (nth_ext _ _ d (f 0%nat)).
  - rewrite length_map, length_seq. exact Hlen.
  - intros i Hi. rewrite Hlen in Hi.
    rewrite (map_nth f), seq_nth by exact Hi.
    apply Hnth. exact Hi.
Qed.

(** The six buckets, with dates as the aggregator reads them.  For every
    list of booking records and every current instant [monthlyRevenue]
    has exactly 6 entries, and entry [i] is the running sum of
    [total_price] over the records that are completed and whose month
    difference [d] has [0 <= d < 6] and [i = 5 - d]; a record whose
    month difference is negative or 6 or more is added to no bucket.
    The month difference is years apart times 12 plus months apart,
    current minus event, where the year and the month of the event are
    those [getFullYear] and [getMonth] return, in local time, for the
    midnight (UTC) that starts the event day: three hours behind UTC,
    on 10 March, an event dated 1 April has month difference 0. *)
Theorem monthlyRevenue_six_buckets (l : list Booking) :
  let buckets :=
    Analytics.monthlyRevenue (Analytics.computeAnalytics tz now (Some l)) in
  List.length buckets = 6%nat
  /\ buckets
     = map (fun i => Analytics.sumPrices (filter (Spec.inBucket tz now i) l))
           (seq 0 6)
  /\ (forall b : Booking,
        Analytics.monthDiff tz now b
        = match JS.Date_parse (event_date b) with
          | Some t =>
              Some ((JS.YearFromTime (JS.LocalTime tz now)
                     - JS.YearFromTime (JS.LocalTime tz t)) * 12
                    + (JS.MonthFromTime (JS.LocalTime tz now)
                       - JS.MonthFromTime (JS.LocalTime tz t)))%Z
          | None => None
          end)
  /\ (forall (b : Booking) (i : nat),
        (Spec.inBucket tz now i b
         && JS.lt (Analytics.monthDiff tz now b) (Some 0%Z))%bool = false)
  /\ (forall (b : Booking) (i : nat),
        (Spec.inBucket tz now i b
         && JS.ge (Analytics.monthDiff tz now b) (Some 6%Z))%bool = false)
  /\ Analytics.monthDiff Sample.brt Sample.noon_2025_03_10
       (Sample.booking "b1" "2025-04-01" completed 500 None 0)
     = Some 0%Z
  /\ Analytics.monthDiff Sample.utc Sample.noon_2025_03_10
       (Sample.booking "b1" "2025-04-01" completed 500 None 0)
     = Some (-1)%Z.
Proof.
  cbn [Analytics.computeAnalytics Analytics.monthlyRevenue].
  assert (Hlen : List.length
                   (fold_left (Analytics.addMonthly tz now)
                              (filter Analytics.isCompleted l) (repeat 0 6))
                 = 6%nat).
  { rewrite fold_addMonthly_length. reflexivity. }
  split; [exact Hlen|].
  split.
  { apply (eq_map_seq 0); [exact Hlen|].
    intros i Hi. rewrite fold_addMonthly_nth by (simpl; exact Hi).
    rewrite filter_filter.
    replace (nth i (repeat 0 6) 0) with 0
      by (do 6 (destruct i as [|i]; [reflexivity|]); simpl in Hi; lia).
    reflexivity. }
  split.
  { intro b. unfold Analytics.monthDiff.
    destruct (JS.Date_parse (event_date b)); reflexivity. }
  split; [|split; [|split; reflexivity]];
    intros b i; unfold Spec.inBucket, Spec.hitsBucket;
    destruct (Spec.hasStatus completed b); try reflexivity;
    destruct (Analytics.monthDiff tz now b) as [d|]; try reflexivity;
    unfold JS.lt, JS.ge, JS.cmp2; cbn [andb];
    apply andb_false_iff.
  - destruct (d <? 0)%Z eqn:E; [left|right; reflexivity].
    apply andb_false_iff. left. apply andb_false_iff. left. lia.
  - destruct (d >=? 6)%Z eqn:E; [left|right; reflexivity].
    apply andb_false_iff. left. apply andb_false_iff. right. lia.
Qed.

End MonthlyRevenue.

(** ** Dictionaries and sorting *)

Section Dictionaries.

Variable V : Type.

Lemma getOwn_setOwn (o : JS.Obj V) (k k' : string) (v : V) :
  JS.getOwn (JS.setOwn o k v) k'
  = if String.eqb k' k then Some v else JS.getOwn o k'.
Proof.
  induction o as [|[k0 v0] o IH]; simpl.
  - reflexivity.
  - destruct (String.eqb_spec k k0) as [E|E]; simpl.
    + subst k0. destruct (String.eqb k' k); reflexivity.
    + destruct (String.eqb_spec k' k0) as [E'|E'].
      * subst k0. destruct (String.eqb_spec k' k); [congruence|reflexivity].
      * exact IH.
Qed.

Lemma setOwn_setOwn (o : JS.Obj V) (k : string) (v v' : V) :
  JS.setOwn (JS.setOwn o k v) k v' = JS.setOwn o k v'.
Proof.
  induction o as [|[k0 v0] o IH]; simpl.
  - rewrite String.eqb_refl. reflexivity.
  - destruct (String.eqb k k0) eqn:E; simpl; rewrite E;
      [reflexivity|rewrite IH; reflexivity].
Qed.

Lemma setOwn_keys (o : JS.Obj V) (k k' : string) (v : V) :
  In k' (map fst (JS.setOwn o k v)) <-> k' = k \/ In k' (map fst o).
Proof.
  induction o as [|[k0 v0] o IH]; simpl.
  - intuition.
  - destruct (String.eqb_spec k k0) as [E|E]; simpl.
    + subst k0. intuition.
    + rewrite IH. intuition.
Qed.

Lemma setOwn_NoDup (o : JS.Obj V) (k : string) (v : V) :
  NoDup (map fst o) -> NoDup (map fst (JS.setOwn o k v)).
Proof.
  induction o as [|[k0 v0] o IH]; simpl; intro H.
  - constructor; [intros []|constructor].
  - inversion H as [|? ? Hn Hd]; subst.
    destruct (String.eqb_spec k k0) as [E|E]; simpl.
    + constructor; assumption.
    + constructor; [|apply IH; exact Hd].
      rewrite setOwn_keys. intros [E'|Hin]; [congruence|contradiction].
Qed.

Lemma getOwn_None (o : JS.Obj V) (k : string) :
  JS.getOwn o k = None <-> ~ In k (map fst o).
Proof.
  induction o as [|[k0 v0] o IH]; simpl.
  - intuition.
  - destruct (String.eqb_spec k k0) as [E|E].
    + subst k0. split; [discriminate|intro H; exfalso; apply H; auto].
    + rewrite IH. intuition congruence.
Qed.

Lemma getOwn_In (o : JS.Obj V) (k : string) (v : V) :
  NoDup (map fst o) -> (In (k, v) o <-> JS.getOwn o k = Some v).
Proof.
  induction o as [|[k0 v0] o IH]; simpl; intro H.
  - split; [intros []|discriminate].
  - inversion H as [|? ? Hn Hd]; subst.
    destruct (String.eqb_spec k k0) as [E|E].
    + subst k0. split.
      * intros [E|Hin]; [congruence|].
        exfalso. apply Hn. apply (in_map fst) in Hin. exact Hin.
      * intro E. left. congruence.
    + rewrite <- (IH Hd). split; [intros [E'|Hin]|]; auto; congruence.
Qed.

Variable compareFn : V -> V -> Q.

Lemma sort_insert_perm (x : V) (l : list V) :
  Permutation (JS.sort_insert compareFn x l) (x :: l).
Proof.
  induction l as [|y l IH]; simpl.
  - apply Permutation_refl.
  - destruct (Qle_bool (compareFn x y) 0).
    + apply Permutation_refl.
    + apply Permutation_trans with (y :: x :: l).
      * apply perm_skip. exact IH.
      * apply perm_swap.
Qed.

Lemma sort_perm (l : list V) : Permutation (JS.sort compareFn l) l.
Proof.
  induction l as [|x l IH]; simpl.
  - apply Permutation_refl.
  - apply Permutation_trans with (x :: JS.sort compareFn l).
    + apply sort_insert_perm.
    + apply perm_skip. exact IH.
Qed.

(** Where the comparator orders as a total preorder does, sorting gives a
    list in which every element goes before all those after it. *)
Variable goesFirst : V -> V -> Prop.
Hypothesis goesFirst_trans :
  forall x y z, goesFirst x y -> goesFirst y z -> goesFirst x z.
Hypothesis compareFn_le :
  forall x y, Qle_bool (compareFn x y) 0 = true -> goesFirst x y.
Hypothesis compareFn_gt :
  forall x y, Qle_bool (compareFn x y) 0 = false -> goesFirst y x.

Lemma sort_insert_sorted (x : V) (l : list V) :
  StronglySorted goesFirst l ->
  StronglySorted goesFirst (JS.sort_insert compareFn x l).
Proof.
  induction l as [|y l IH]; simpl; intro H.
  - constructor; [constructor|constructor].
  - inversion H as [|? ? Hs Hall]; subst.
    destruct (Qle_bool (compareFn x y) 0) eqn:E.
    + constructor; [exact H|].
      constructor; [apply compareFn_le; exact E|].
      rewrite Forall_forall in *. intros z Hz.
      apply goesFirst_trans with y; [apply compareFn_le; exact E|auto].
    + constructor; [apply IH; exact Hs|].
      rewrite Forall_forall in *. intros z Hz.
      apply (Permutation_in _ (sort_insert_perm x l)) in Hz.
      destruct Hz as [Hz|Hz]; [subst z; apply compareFn_gt; exact E|auto].
Qed.

Lemma sort_sorted (l : list V) :
  StronglySorted goesFirst (JS.sort compareFn l).
Proof.
  induction l as [|x l IH]; simpl.
  - constructor.
  - apply sort_insert_sorted. exact IH.
Qed.

End Dictionaries.

Lemma filter_split_perm (A : Type) (p : A -> bool) (l : list A) :
  Permutation (filter p l ++ filter (fun x => negb (p x)) l) l.
Proof.
  induction l as [|x l IH]; simpl.
  - apply Permutation_refl.
  - destruct (p x); simpl.
    + apply perm_skip. exact IH.
    + apply Permutation_sym.
      apply Permutation_cons_app. apply Permutation_sym. exact IH.
Qed.

Lemma entries_perm (V : Type) (o : JS.Obj V) : Permutation (JS.entries o) o.
Proof.
  unfold JS.entries.
  apply Permutation_trans
    with (filter (@JS.isIndexKey V) o
          ++ filter (fun e => negb (JS.isIndexKey e)) o).
  - apply Permutation_app_tail. apply sort_perm.
  - apply filter_split_perm.
Qed.

Lemma firstn_In (A : Type) (n : nat) (l : list A) (x : A) :
  In x (firstn n l) -> In x l.
Proof.
  intro H. rewrite <- (firstn_skipn n l). apply in_or_app. left. exact H.
Qed.

Lemma firstn_sorted (A : Type) (R : A -> A -> Prop) (n : nat) (l : list A) :
  StronglySorted R l -> StronglySorted R (firstn n l).
Proof.
  revert n; induction l as [|x l IH]; intros [|n] H; simpl;
    try constructor.
  - inversion H; subst. apply IH. assumption.
  - inversion H as [|? ? Hs Hall]; subst.
    rewrite Forall_forall in *. intros z Hz.
    apply Hall. apply firstn_In with n. exact Hz.
Qed.

(** ** Top services *)

Section TopServices.

Import Schema.
Local Open Scope Q_scope.

Lemma addService_cases (o : JS.Obj Analytics.Stat.t) (b : Booking) :
  Analytics.addService o b
  = match JS.getOwn o (Analytics.serviceTitle b) with
    | Some s => JS.setOwn o (Analytics.serviceTitle b) (Spec.bump (Some s) b)
    | None =>
        if JS.inherited (Analytics.serviceTitle b) then o
        else JS.setOwn o (Analytics.serviceTitle b) (Spec.bump None b)
    end.
Proof.
  unfold Analytics.addService, Analytics.readsTruthy, Analytics.update.
  set (k := Analytics.serviceTitle b).
  destruct (JS.getOwn o k) as [s|] eqn:E.
  - cbn [negb]. rewrite E.
    rewrite getOwn_setOwn, String.eqb_refl, setOwn_setOwn. reflexivity.
  - destruct (JS.inherited k) eqn:I; cbn [negb].
    + rewrite E. rewrite E. reflexivity.
    + rewrite getOwn_setOwn, String.eqb_refl, setOwn_setOwn.
      rewrite getOwn_setOwn, String.eqb_refl, setOwn_setOwn.
      reflexivity.
Qed.

Lemma getOwn_Some_key (V : Type) (o : JS.Obj V) (k : string) (v : V) :
  JS.getOwn o k = Some v -> In k (map fst o).
Proof.
  intro H. destruct (in_dec string_dec k (map fst o)) as [Hin|Hn].
  - exact Hin.
  - apply getOwn_None in Hn. congruence.
Qed.

Lemma wellKeyed_addService (o : JS.Obj Analytics.Stat.t) (b : Booking) :
  Spec.wellKeyed o -> Spec.wellKeyed (Analytics.addService o b).
Proof.
  intros [Hd Hk]. rewrite addService_cases.
  destruct (JS.getOwn o (Analytics.serviceTitle b)) as [s|] eqn:E.
  - split; [apply setOwn_NoDup; exact Hd|].
    intros k Hin. apply setOwn_keys in Hin. destruct Hin as [->|Hin].
    + apply Hk. apply getOwn_Some_key with s. exact E.
    + apply Hk. exact Hin.
  - destruct (JS.inherited (Analytics.serviceTitle b)) eqn:I.
    + split; assumption.
    + split; [apply setOwn_NoDup; exact Hd|].
      intros k Hin. apply setOwn_keys in Hin. destruct Hin as [->|Hin].
      * exact I.
      * apply Hk. exact Hin.
Qed.

Lemma getOwn_addService (o : JS.Obj Analytics.Stat.t) (b : Booking)
      (k : string) :
  Spec.wellKeyed o ->
  JS.getOwn (Analytics.addService o b) k = Spec.tally k (JS.getOwn o k) b.
Proof.
  intros [Hd Hk]. rewrite addService_cases.
  unfold Spec.tally, Spec.countsFor.
  destruct (String.eqb_spec (Analytics.serviceTitle b) k) as [Ek|Ek].
  - subst k. cbn [andb].
    destruct (JS.getOwn o (Analytics.serviceTitle b)) as [s|] eqn:E.
    + rewrite (Hk _ (getOwn_Some_key _ _ E)). cbn [negb].
      rewrite getOwn_setOwn, String.eqb_refl. reflexivity.
    + destruct (JS.inherited (Analytics.serviceTitle b)); cbn [negb].
      * exact E.
      * rewrite getOwn_setOwn, String.eqb_refl. reflexivity.
  - cbn [andb].
    assert (Ek' : String.eqb k (Analytics.serviceTitle b) = false).
    { apply String.eqb_neq. congruence. }
    destruct (JS.getOwn o (Analytics.serviceTitle b)) as [s|].
    + rewrite getOwn_setOwn, Ek'. reflexivity.
    + destruct (JS.inherited (Analytics.serviceTitle b)).
      * reflexivity.
      * rewrite getOwn_setOwn, Ek'. reflexivity.
Qed.

Lemma fold_addService (l : list Booking) (o : JS.Obj Analytics.Stat.t) :
  Spec.wellKeyed o ->
  Spec.wellKeyed (fold_left Analytics.addService l o)
  /\ forall k, JS.getOwn (fold_left Analytics.addService l o) k
               = fold_left (Spec.tally k) l (JS.getOwn o k).
Proof.
  revert o; induction l as [|b l IH]; intros o Ho; simpl.
  - split; [exact Ho|reflexivity].
  - destruct (IH _ (wellKeyed_addService b Ho)) as [Hw Hg].
    split; [exact Hw|].
    intro k. rewrite Hg, getOwn_addService by exact Ho. reflexivity.
Qed.

Lemma tally_bookings (k : string) (l : list Booking)
      (s : option Analytics.Stat.t) :
  Spec.bookingsOf (fold_left (Spec.tally k) l s)
  = (Spec.bookingsOf s + Spec.countIf (Spec.countsFor k) l)%Z.
Proof.
  revert s; induction l as [|b l IH]; intro s;
    cbn [fold_left Spec.countIf filter map Spec.sumQ].
  - lia.
  - rewrite IH. unfold Spec.tally.
    destruct (Spec.countsFor k b); [|lia].
    destruct s as [s|]; cbn [Spec.bookingsOf Spec.bump
      Analytics.Stat.bookings]; lia.
Qed.

Lemma tally_revenue (k : string) (l : list Booking)
      (s : option Analytics.Stat.t) :
  Spec.revenueOf (fold_left (Spec.tally k) l s)
  == Spec.revenueOf s
     + Spec.sumQ (map total_price (filter (Spec.countsFor k) l)).
Proof.
  revert s; induction l as [|b l IH]; intro s;
    cbn [fold_left Spec.countIf filter map Spec.sumQ].
  - ring.
  - rewrite IH. unfold Spec.tally.
    destruct (Spec.countsFor k b); [|reflexivity].
    destruct s as [s|]; cbn [map Spec.sumQ Spec.revenueOf Spec.bump
      Analytics.Stat.revenue]; ring.
Qed.

Lemma tally_some (k : string) (l : list Booking)
      (s : option Analytics.Stat.t) :
  fold_left (Spec.tally k) l s = None
  <-> s = None /\ Spec.countIf (Spec.countsFor k) l = 0%Z.
Proof.
  revert s; induction l as [|b l IH]; intro s;
    cbn [fold_left Spec.countIf filter map Spec.sumQ].
  - intuition.
  - rewrite IH. unfold Spec.tally.
    pose proof (countIf_bounds (Spec.countsFor k) l) as Hb.
    destruct (Spec.countsFor k b).
    + split; [intros [E _]; discriminate|intros [_ E]; lia].
    + intuition.
Qed.

Lemma countIf_filter (A : Type) (p q : A -> bool) (l : list A) :
  Spec.countIf p (filter q l) = Spec.countIf (fun x => q x && p x)%bool l.
Proof.
  induction l as [|x l IH]; simpl.
  - reflexivity.
  - destruct (q x); simpl; rewrite IH; reflexivity.
Qed.

Lemma countIf_ext (A : Type) (p q : A -> bool) (l : list A) :
  (forall x, p x = q x) -> Spec.countIf p l = Spec.countIf q l.
Proof.
  intro H; induction l as [|x l IH]; simpl.
  - reflexivity.
  - rewrite H, IH. reflexivity.
Qed.

Lemma filter_ext_bool (A : Type) (p q : A -> bool) (l : list A) :
  (forall x, p x = q x) -> filter p l = filter q l.
Proof.
  intro H; induction l as [|x l IH]; simpl.
  - reflexivity.
  - rewrite H, IH. reflexivity.
Qed.

Lemma completed_countsFor (k : string) (b : Booking) :
  JS.inherited k = false ->
  (Analytics.isCompleted b && Spec.countsFor k b)%bool = Spec.ofTitle k b.
Proof.
  intro I. unfold Spec.countsFor, Spec.ofTitle. rewrite I.
  cbn [negb]. rewrite andb_true_r. reflexivity.
Qed.

Lemma byRevenueDesc_le (a b : Analytics.TopService) :
  Qle_bool (Analytics.byRevenueDesc a b) 0 = true -> Spec.revenueDesc a b.
Proof.
  unfold Analytics.byRevenueDesc, Spec.revenueDesc.
  rewrite Qle_bool_iff. intro H. lra.
Qed.

Lemma byRevenueDesc_gt (a b : Analytics.TopService) :
  Qle_bool (Analytics.byRevenueDesc a b) 0 = false -> Spec.revenueDesc b a.
Proof.
  unfold Analytics.byRevenueDesc, Spec.revenueDesc. intro H.
  destruct (Qlt_le_dec 0 (Analytics.revenue b - Analytics.revenue a))
    as [Hlt|Hle].
  - lra.
  - apply Qle_bool_iff in Hle. congruence.
Qed.

Lemma revenueDesc_trans (a b c : Analytics.TopService) :
  Spec.revenueDesc a b -> Spec.revenueDesc b c -> Spec.revenueDesc a c.
Proof.
  unfold Spec.revenueDesc. intros H1 H2. lra.
Qed.

Lemma sorted_app_cross (A : Type) (R : A -> A -> Prop) (l1 l2 : list A) :
  StronglySorted R (l1 ++ l2) ->
  forall a b, In a l1 -> In b l2 -> R a b.
Proof.
  induction l1 as [|x l1 IH]; simpl; intros H a b Ha Hb.
  - contradiction.
  - inversion H as [|? ? Hs Hall]; subst.
    destruct Ha as [->|Ha].
    + rewrite Forall_forall in Hall. apply Hall.
      apply in_or_app. right. exact Hb.
    + apply IH; assumption.
Qed.

Variable tz : Z -> Z.
Variable now : Z.

(** What [topServices] holds, for every list of booking records: at most
    5 entries, sorted by revenue, largest first, one for a title; each
    entry is the group of the completed records of its title, a title
    that is no name of [Object.prototype], with their number and the sum
    of their prices; and a group of such a title that is left out is one
    that the cut to 5 dropped, its revenue no larger than any kept. *)
Theorem topServices_groups (l : list Booking) :
  let top :=
    Analytics.topServices (Analytics.computeAnalytics tz now (Some l)) in
  (List.length top <= 5)%nat
  /\ StronglySorted Spec.revenueDesc top
  /\ NoDup (map Analytics.title top)
  /\ (forall e, In e top ->
        JS.inherited (Analytics.title e) = false
        /\ (0 < Analytics.bookings e)%Z
        /\ Analytics.bookings e
           = Spec.countIf (Spec.ofTitle (Analytics.title e)) l
        /\ Analytics.revenue e
           == Spec.sumQ (map total_price
                             (filter (Spec.ofTitle (Analytics.title e)) l)))
  /\ (forall t,
        JS.inherited t = false ->
        (0 < Spec.countIf (Spec.ofTitle t) l)%Z ->
        (exists e, In e top /\ Analytics.title e = t)
        \/ (List.length top = 5%nat
            /\ forall e, In e top ->
                  Spec.sumQ (map total_price (filter (Spec.ofTitle t) l))
                  <= Analytics.revenue e)).
Proof.
  cbn [Analytics.computeAnalytics Analytics.topServices].
  set (cs := filter Analytics.isCompleted l).
  assert (Hnil : Spec.wellKeyed (@nil (string * Analytics.Stat.t))).
  { split; [constructor|intros k []]. }
  destruct (fold_addService cs Hnil) as [[Hd Hk] Hg].
  set (stats := fold_left Analytics.addService cs []) in *.
  set (all := map Analytics.toTopService (JS.entries stats)).
  set (sorted := JS.sort Analytics.byRevenueDesc all).
  assert (Hcount : forall k, JS.inherited k = false ->
            Spec.countIf (Spec.countsFor k) cs
            = Spec.countIf (Spec.ofTitle k) l).
  { intros k I. unfold cs. rewrite countIf_filter.
    apply countIf_ext. intro b. apply completed_countsFor. exact I. }
  assert (Hfilter : forall k, JS.inherited k = false ->
            filter (Spec.countsFor k) cs = filter (Spec.ofTitle k) l).
  { intros k I. unfold cs. rewrite filter_filter.
    apply filter_ext_bool. intro b. apply completed_countsFor. exact I. }
  assert (Hentry : forall k s, In (k, s) (JS.entries stats) ->
            JS.inherited k = false
            /\ (0 < Analytics.Stat.bookings s)%Z
            /\ Analytics.Stat.bookings s = Spec.countIf (Spec.ofTitle k) l
            /\ Analytics.Stat.revenue s
               == Spec.sumQ (map total_price (filter (Spec.ofTitle k) l))).
  { intros k s Hin.
    apply (Permutation_in _ (entries_perm stats)) in Hin.
    assert (I : JS.inherited k = false).
    { apply Hk. apply (in_map fst) in Hin. exact Hin. }
    apply (getOwn_In _ _ _ Hd) in Hin. rewrite Hg in Hin. cbn in Hin.
    pose proof (tally_bookings k cs None) as Hb.
    pose proof (tally_revenue k cs None) as Hr.
    pose proof (tally_some k cs None) as Hs.
    pose proof (countIf_bounds (Spec.countsFor k) cs) as Hbd.
    rewrite Hin in Hb, Hr, Hs.
    cbn [Spec.bookingsOf Spec.revenueOf] in Hb, Hr.
    rewrite Hcount in Hb, Hs, Hbd by exact I.
    rewrite Hfilter in Hr by exact I.
    split; [exact I|]. split; [|split].
    - assert (Spec.countIf (Spec.ofTitle k) l <> 0%Z).
      { intro E. destruct Hs as [_ Hs]. discriminate (Hs (conj eq_refl E)). }
      lia.
    - lia.
    - rewrite Hr. ring. }
  assert (Hall : forall e, In e sorted ->
            exists k s, In (k, s) (JS.entries stats)
                        /\ e = Analytics.toTopService (k, s)).
  { intros e He. apply (Permutation_in _ (sort_perm _ all)) in He.
    unfold all in He. apply in_map_iff in He.
    destruct He as [[k s] [E Hin]]. exists k, s. split; [exact Hin|].
    symmetry. exact E. }
  assert (Hsorted : StronglySorted Spec.revenueDesc sorted).
  { apply sort_sorted.
    - exact revenueDesc_trans.
    - exact byRevenueDesc_le.
    - exact byRevenueDesc_gt. }
  assert (Htitles : NoDup (map Analytics.title sorted)).
  { apply Permutation_NoDup with (map fst stats); [|exact Hd].
    apply Permutation_sym.
    apply Permutation_trans with (map Analytics.title all).
    - apply Permutation_map. apply sort_perm.
    - unfold all. rewrite map_map. cbn [Analytics.toTopService Analytics.title].
      apply Permutation_map. apply entries_perm. }
  unfold JS.slice0. fold stats. fold all. fold sorted.
  split; [apply firstn_le_length|].
  split; [apply firstn_sorted; exact Hsorted|].
  split.
  { rewrite <- (firstn_skipn 5 sorted), map_app in Htitles.
    apply NoDup_app_remove_r in Htitles. exact Htitles. }
  split.
  { intros e He. apply firstn_In in He.
    destruct (Hall e He) as [k [s [Hin ->]]].
    cbn [Analytics.toTopService Analytics.title Analytics.bookings
         Analytics.revenue fst snd].
    apply Hentry. exact Hin. }
  intros t I Hpos.
  assert (Hsome : exists s, In (t, s) (JS.entries stats)).
  { destruct (JS.getOwn stats t) as [s|] eqn:E.
    - exists s. apply (Permutation_in _ (Permutation_sym (entries_perm stats))).
      apply (getOwn_In _ _ _ Hd). exact E.
    - rewrite Hg in E. cbn in E. apply tally_some in E.
      destruct E as [_ E]. rewrite Hcount in E by exact I. lia. }
  destruct Hsome as [s Hin].
  assert (He : In (Analytics.toTopService (t, s)) sorted).
  { apply (Permutation_in _ (Permutation_sym (sort_perm _ all))).
    unfold all. apply in_map. exact Hin. }
  rewrite <- (firstn_skipn 5 sorted) in He.
  apply in_app_or in He. destruct He as [He|He].
  - left. exists (Analytics.toTopService (t, s)). split; [exact He|reflexivity].
  - right. split.
    + rewrite length_firstn.
      assert (5 < List.length sorted)%nat; [|lia].
      destruct (Nat.lt_ge_cases 5 (List.length sorted)) as [H|H];
        [exact H|].
      rewrite skipn_all2 in He by lia. contradiction.
    + intros e Hin'.
      destruct (Hentry t s Hin) as (_ & _ & _ & Hr).
      rewrite <- Hr.
      rewrite <- (firstn_skipn 5 sorted) in Hsorted.
      exact (@sorted_app_cross _ _ _ _ Hsorted e _ Hin' He).
Qed.

End TopServices.

(** C6.  A completed booking of a service whose title is a name of
    [Object.prototype] -- here "constructor" -- is left out of
    [topServices]: the dictionary of groups reads the inherited member
    under that key, takes the group for present and never creates it.
    The record is one completed booking of its title, priced 500, and
    the same record under another title makes a group of one booking
    and revenue 500. *)
Theorem topServices_misses_prototype_title :
  let b := Sample.booking "b1" "2025-03-05" Schema.completed 500
                          (Some "constructor"%string) 0 in
  let b' := Sample.booking "b1" "2025-03-05" Schema.completed 500
                           (Some "Costela"%string) 0 in
  Analytics.topServices
    (Analytics.computeAnalytics Sample.utc Sample.noon_2025_03_10 (Some [b]))
  = []
  /\ Spec.countIf (Spec.ofTitle "constructor") [b] = 1%Z
  /\ Analytics.totalRevenue
       (Analytics.computeAnalytics Sample.utc Sample.noon_2025_03_10
                                   (Some [b]))
     == 500%Q
  /\ map (fun e => (Analytics.title e, Analytics.bookings e))
         (Analytics.topServices
            (Analytics.computeAnalytics Sample.utc Sample.noon_2025_03_10
                                        (Some [b'])))
     = [("Costela"%string, 1%Z)].
Proof.
  repeat split; vm_compute; reflexivity.
Qed.

(** ** Upcoming and past bookings *)

Section Tabs.

Import Schema.

(** The two tabs, with dates as the screen compares them: as instants.
    For every booking and every current instant, a booking is under the
    upcoming tab exactly when the midnight (UTC) that starts its event
    day is not before the current instant and its status is neither
    completed nor cancelled, and it is under the past tab exactly when
    it is not under the upcoming one; so a completed or cancelled
    booking is always past, and at noon (UTC) a pending or confirmed
    booking dated that very day is past too. *)
Theorem upcoming_iff_date_and_open_status (now : Z) (b : Booking) :
  ClientBookings.inTab ClientBookings.upcoming now b
  = match status b with
    | completed | cancelled => false
    | pending | confirmed => ClientBookings.isUpcoming now (event_date b)
    end
  /\ ClientBookings.inTab ClientBookings.past now b
     = match status b with
       | completed | cancelled => true
       | pending | confirmed =>
           negb (ClientBookings.isUpcoming now (event_date b))
       end
  /\ ClientBookings.inTab ClientBookings.past now b
     = negb (ClientBookings.inTab ClientBookings.upcoming now b)
  /\ (ClientBookings.isUpcoming now (event_date b) = true
      <-> exists t, JS.Date_parse (event_date b) = Some t /\ (now <= t)%Z)
  /\ (ClientBookings.inTab ClientBookings.upcoming now b = true
      <-> (exists t, JS.Date_parse (event_date b) = Some t /\ (now <= t)%Z)
          /\ status b <> completed /\ status b <> cancelled)
  /\ JS.Date_parse "2025-03-10" = Some 1741564800000%Z
  /\ ClientBookings.inTab ClientBookings.upcoming Sample.noon_2025_03_10
       (Sample.booking "b1" "2025-03-10" confirmed 500 None 0)
     = false.
Proof.
  assert (Hup : ClientBookings.isUpcoming now (event_date b) = true
                <-> exists t, JS.Date_parse (event_date b) = Some t
                              /\ (now <= t)%Z).
  { unfold ClientBookings.isUpcoming, JS.ge, JS.cmp2.
    destruct (JS.Date_parse (event_date b)) as [t|].
    - split.
      + intro H. exists t. split; [reflexivity|lia].
      + intros [t' [E H]]. inversion E; subst. lia.
    - split; [discriminate|intros [t' [E _]]; discriminate]. }
  unfold ClientBookings.inTab, ClientBookings.isStatus.
  split; [|split; [|split; [|split; [exact Hup|split;
                                        [|split; reflexivity]]]]].
  - destruct (status b), (ClientBookings.isUpcoming now (event_date b));
      reflexivity.
  - destruct (status b), (ClientBookings.isUpcoming now (event_date b));
      reflexivity.
  - destruct (status b), (ClientBookings.isUpcoming now (event_date b));
      reflexivity.
  - rewrite <- Hup.
    destruct (status b), (ClientBookings.isUpcoming now (event_date b));
      cbn [status_eqb negb andb];
      (split; [intro H; try discriminate H;
               repeat split; try reflexivity; discriminate
              |intros (H1 & H2 & H3); try discriminate H1;
               try reflexivity; congruence]).
Qed.

End Tabs.

(** ** The search filter *)

Section SearchFilter.

Local Open Scope Q_scope.

Lemma trimIsTruthy_whitespaceOnly (q : string) :
  JS.trimIsTruthy q = negb (Spec.whitespaceOnly q).
Proof.
  induction q as [|c q IH]; simpl.
  - reflexivity.
  - rewrite IH. destruct (JS.isWhiteSpace c), (Spec.whitespaceOnly q);
      reflexivity.
Qed.

Lemma filter_true (A : Type) (l : list A) : filter (fun _ => true) l = l.
Proof.
  induction l as [|x l IH]; simpl; [|rewrite IH]; reflexivity.
Qed.

Lemma filter_idem (A : Type) (p : A -> bool) (l : list A) :
  filter p (filter p l) = filter p l.
Proof.
  rewrite filter_filter. apply filter_ext_bool.
  intro x. destruct (p x); reflexivity.
Qed.

Lemma filter_subseq (A : Type) (p : A -> bool) (l : list A) :
  Spec.Subseq (filter p l) l.
Proof.
  induction l as [|x l IH]; simpl.
  - constructor.
  - destruct (p x); constructor; exact IH.
Qed.

(** The filter is one pass that keeps what [Spec.accepts] accepts. *)
Lemma filterServices_accepts (q : string) (toggles : list string)
      (services : list Search.Service) :
  Search.filterServices q toggles services
  = filter (Spec.accepts q toggles) services.
Proof.
  unfold Search.filterServices.
  rewrite trimIsTruthy_whitespaceOnly.
  transitivity
    (filter (fun s => implb (JS.array_includes toggles "premium")
                            (Search.isPremium s))
       (filter (fun s => implb (JS.array_includes toggles "budget")
                               (Search.isBudget s))
          (filter (fun s => Spec.whitespaceOnly q
                            || Search.matchesText q s)%bool
                  services))).
  - destruct (Spec.whitespaceOnly q); cbn [negb orb implb];
      destruct (JS.array_includes toggles "budget");
      destruct (JS.array_includes toggles "premium");
      cbn [implb]; rewrite ?filter_true; reflexivity.
  - rewrite !filter_filter. apply filter_ext_bool. intro s.
    unfold Spec.accepts. rewrite andb_assoc. reflexivity.
Qed.

Lemma isBudget_iff (s : Search.Service) :
  Search.isBudget s = true <-> Search.price_from s <= 500.
Proof. unfold Search.isBudget. apply Qle_bool_iff. Qed.

Lemma isPremium_iff (s : Search.Service) :
  Search.isPremium s = true <-> 800 <= Search.price_from s.
Proof. unfold Search.isPremium. apply Qle_bool_iff. Qed.

Lemma budget_and_premium_exclude (l : list Search.Service) :
  filter Search.isPremium (filter Search.isBudget l) = [].
Proof.
  rewrite filter_filter.
  induction l as [|s l IH]; [reflexivity|].
  cbn [filter].
  destruct (Search.isBudget s && Search.isPremium s)%bool eqn:E;
    [|exact IH].
  apply andb_true_iff in E. destruct E as [E1 E2].
  apply isBudget_iff in E1. apply isPremium_iff in E2. lra.
Qed.

(** C8.  For every service list, text query and set of selected toggles
    the search filter applies the text predicate first and then the
    predicate of each selected toggle, each narrowing the result: with
    the budget toggle the result is exactly the services that survive
    the text predicate and have [price_from <= 500], with the premium
    toggle exactly those with [price_from >= 800], with both exactly
    those with both (there are none).  For the prices 400, 900, 600 and
    an empty query, budget keeps the 400 item, premium the 900 item and
    both keep nothing. *)
Theorem filterServices_text_then_toggles
        (q : string) (toggles : list string)
        (services : list Search.Service) :
  let survivors :=
    if Spec.whitespaceOnly q then services
    else filter (Search.matchesText q) services in
  let sample := [Sample.service "s1" 400; Sample.service "s2" 900;
                 Sample.service "s3" 600] in
  Search.filterServices q toggles services
  = filter (fun s =>
              implb (JS.array_includes toggles "budget") (Search.isBudget s)
              && implb (JS.array_includes toggles "premium")
                       (Search.isPremium s))%bool
           survivors
  /\ Search.filterServices q ["budget"%string] services
     = filter Search.isBudget survivors
  /\ Search.filterServices q ["premium"%string] services
     = filter Search.isPremium survivors
  /\ Search.filterServices q ["budget"%string; "premium"%string] services
     = filter Search.isPremium (filter Search.isBudget survivors)
  /\ Search.filterServices q ["budget"%string; "premium"%string] services
     = []
  /\ (forall s, In s (Search.filterServices q ["budget"%string] services)
                <-> In s survivors /\ Search.price_from s <= 500)
  /\ (forall s, In s (Search.filterServices q ["premium"%string] services)
                <-> In s survivors /\ 800 <= Search.price_from s)
  /\ map Search.price_from
         (Search.filterServices "" ["budget"%string] sample) = [400]
  /\ map Search.price_from
         (Search.filterServices "" ["premium"%string] sample) = [900]
  /\ Search.filterServices "" ["budget"%string; "premium"%string] sample
     = [].
Proof.
  cbv zeta.
  assert (Hs : (if JS.trimIsTruthy q
                then filter (Search.matchesText q) services
                else services)
               = (if Spec.whitespaceOnly q then services
                  else filter (Search.matchesText q) services)).
  { rewrite trimIsTruthy_whitespaceOnly.
    destruct (Spec.whitespaceOnly q); reflexivity. }
  assert (Hb : Search.filterServices q ["budget"%string] services
               = filter Search.isBudget
                   (if Spec.whitespaceOnly q then services
                    else filter (Search.matchesText q) services)).
  { unfold Search.filterServices. rewrite Hs. reflexivity. }
  assert (Hp : Search.filterServices q ["premium"%string] services
               = filter Search.isPremium
                   (if Spec.whitespaceOnly q then services
                    else filter (Search.matchesText q) services)).
  { unfold Search.filterServices. rewrite Hs. reflexivity. }
  assert (Hbp : Search.filterServices q ["budget"%string; "premium"%string]
                                      services
                = filter Search.isPremium
                    (filter Search.isBudget
                       (if Spec.whitespaceOnly q then services
                        else filter (Search.matchesText q) services))).
  { unfold Search.filterServices. rewrite Hs. reflexivity. }
  split.
  { unfold Search.filterServices. rewrite Hs.
    destruct (JS.array_includes toggles "budget"),
      (JS.array_includes toggles "premium"); cbn [implb andb].
    - rewrite filter_filter. reflexivity.
    - apply filter_ext_bool.
      intro s. rewrite andb_true_r. reflexivity.
    - reflexivity.
    - rewrite filter_true. reflexivity. }
  split; [exact Hb|]. split; [exact Hp|]. split; [exact Hbp|].
  split.
  { rewrite Hbp. apply budget_and_premium_exclude. }
  split.
  { intro s. rewrite Hb, filter_In, isBudget_iff. reflexivity. }
  split.
  { intro s. rewrite Hp, filter_In, isPremium_iff. reflexivity. }
  repeat split.
Qed.

(** C9.  The search filter is idempotent and keeps the order: filtering
    its own result again, with the same query and toggles, changes
    nothing, and neither does applying a toggle predicate a second time
    or selecting a toggle twice; with a blank query (empty or white
    space only) and no toggle it returns the list it was given; and what
    it returns is always a subsequence of that list, in its order. *)
Theorem filterServices_idempotent_in_order
        (q : string) (toggles : list string)
        (services : list Search.Service) :
  Search.filterServices q toggles (Search.filterServices q toggles services)
  = Search.filterServices q toggles services
  /\ filter Search.isBudget (filter Search.isBudget services)
     = filter Search.isBudget services
  /\ filter Search.isPremium (filter Search.isPremium services)
     = filter Search.isPremium services
  /\ Search.filterServices q (toggles ++ toggles) services
     = Search.filterServices q toggles services
  /\ Search.filterServices q [] services
     = (if Spec.whitespaceOnly q then services
        else filter (Search.matchesText q) services)
  /\ Search.filterServices "" [] services = services
  /\ Search.filterServices "   " [] services = services
  /\ Spec.Subseq (Search.filterServices q toggles services) services.
Proof.
  split.
  { rewrite !filterServices_accepts. apply filter_idem. }
  split; [apply filter_idem|]. split; [apply filter_idem|].
  split.
  { rewrite !filterServices_accepts. apply filter_ext_bool. intro s.
    unfold Spec.accepts, JS.array_includes. rewrite !existsb_app.
    rewrite !orb_diag. reflexivity. }
  split.
  { unfold Search.filterServices. rewrite trimIsTruthy_whitespaceOnly.
    destruct (Spec.whitespaceOnly q); reflexivity. }
  split; [reflexivity|]. split; [reflexivity|].
  rewrite filterServices_accepts. apply filter_subseq.
Qed.

End SearchFilter.

(** ** The dashboard of the professional *)

Section DashboardStats.

Import Schema.
Local Open Scope Q_scope.

Variable tz : Z -> Z.
Variables now1 now2 : Z.

Lemma inject_Z_nonpos (z : Z) :
  Qle_bool (inject_Z z) 0 = true <-> (z <= 0)%Z.
Proof.
  rewrite Qle_bool_iff. change 0 with (inject_Z 0). rewrite <- Zle_Qle.
  reflexivity.
Qed.

Lemma orderBy_desc_sorted (key : Booking -> Z) (rows : Store.Table) :
  StronglySorted (fun a b => (key b <= key a)%Z)
                 (Store.orderBy key false rows).
Proof.
  unfold Store.orderBy. apply sort_sorted.
  - intros x y z H1 H2. lia.
  - intros x y H. apply inject_Z_nonpos in H. lia.
  - intros x y H.
    destruct (Z.le_gt_cases (key y - key x) 0) as [Hle|Hgt]; [|lia].
    apply inject_Z_nonpos in Hle. congruence.
Qed.

Lemma orZero_eq (x : Q) : Dashboard.orZero x == x.
Proof.
  unfold Dashboard.orZero. destruct (Qeq_bool x 0) eqn:E; [|reflexivity].
  apply Qeq_bool_iff in E. symmetry. exact E.
Qed.

Lemma inCurrentMonth_bookedThisMonth (b : Booking) :
  Dashboard.inCurrentMonth tz now1 now2 b
  = Spec.bookedThisMonth tz now1 now2 b.
Proof.
  unfold Dashboard.inCurrentMonth, Spec.bookedThisMonth.
  destruct (JS.Date_parse (event_date b)) as [t|]; [|reflexivity].
  cbn [JS.getMonth JS.getFullYear option_map JS.strictEq JS.cmp2].
  destruct (status b); reflexivity.
Qed.

(** The statistics of the professional's home screen, with dates as the
    screen reads them.  They are computed from the bookings the query
    fetches: those of the professional, newest first by creation time,
    the first 5 of them, or all when there are fewer.  So
    [totalBookings] is the smaller of 5 and the number of the
    professional's bookings, [pendingBookings] counts the pending ones
    among the fetched, and every booking left out was created no later
    than any fetched.  The monthly revenue is the sum of [total_price]
    over the fetched bookings that are confirmed or completed and for
    which [getMonth] and [getFullYear], read in local time at the
    midnight (UTC) that starts the event day, give the current month and
    year; three hours behind UTC, on 10 March, a booking dated 1 April
    is one of them.  A confirmed booking counts here, while the
    analytics aggregator counts completed bookings only. *)
Theorem dashboard_stats_from_five_recent
        (profileId : string) (table : Store.Table)
        (st0 : Dashboard.Screen) :
  let fetched := Dashboard.recentQuery profileId table in
  let st :=
    Dashboard.stats
      (Dashboard.loadDashboardData tz now1 now2 (Some profileId)
                                   (Dashboard.served profileId table) st0) in
  let b := Sample.booking "b1" "2025-03-05" confirmed 300 None 0 in
  (List.length fetched <= 5)%nat
  /\ List.length fetched
     = Nat.min 5 (List.length (filter (Store.ofProfessional profileId) table))
  /\ Dashboard.totalBookings st = Z.of_nat (List.length fetched)
  /\ Dashboard.pendingBookings st
     = Spec.countIf (Spec.hasStatus pending) fetched
  /\ (0 <= Dashboard.pendingBookings st <= Dashboard.totalBookings st)%Z
  /\ (Dashboard.totalBookings st <= 5)%Z
  /\ (exists older,
        Permutation (fetched ++ older)
                    (filter (Store.ofProfessional profileId) table)
        /\ Forall (fun a => Forall (Spec.newestFirst a) older) fetched)
  /\ Dashboard.monthlyRevenue st
     == Spec.sumQ (map (fun b => if Spec.bookedThisMonth tz now1 now2 b
                                 then total_price b else 0)
                       fetched)
  /\ (forall b, Dashboard.inCurrentMonth tz now1 now2 b
                = Spec.bookedThisMonth tz now1 now2 b)
  /\ Dashboard.monthlyRevenue
       (Dashboard.computeStats Sample.utc Sample.noon_2025_03_10
                               Sample.noon_2025_03_10 (Some [b]))
     == 300
  /\ Analytics.totalRevenue
       (Analytics.computeAnalytics Sample.utc Sample.noon_2025_03_10
                                   (Some [b]))
     == 0
  /\ Dashboard.inCurrentMonth Sample.brt Sample.noon_2025_03_10
       Sample.noon_2025_03_10
       (Sample.booking "b2" "2025-04-01" confirmed 700 None 0)
     = true
  /\ Dashboard.inCurrentMonth Sample.brt Sample.noon_2025_03_10
       Sample.noon_2025_03_10
       (Sample.booking "b3" "2025-03-01" confirmed 300 None 0)
     = false.
Proof.
  cbv zeta.
  cbn [Dashboard.loadDashboardData Dashboard.served Dashboard.stats
       Dashboard.computeStats Dashboard.totalBookings
       Dashboard.pendingBookings Dashboard.monthlyRevenue].
  set (fetched := Dashboard.recentQuery profileId table).
  assert (Hlen : (List.length fetched <= 5)%nat).
  { unfold fetched, Dashboard.recentQuery. apply firstn_le_length. }
  change Dashboard.isPending with (Spec.hasStatus pending).
  rewrite (len_filter_countIf (Spec.hasStatus pending) fetched).
  pose proof (countIf_bounds (Spec.hasStatus pending) fetched) as Hb.
  unfold Analytics.len in *.
  split; [exact Hlen|].
  split.
  { unfold fetched, Dashboard.recentQuery. rewrite length_firstn.
    f_equal. unfold Store.orderBy. apply Permutation_length.
    apply sort_perm. }
  split; [reflexivity|]. split; [reflexivity|].
  split; [exact Hb|]. split; [lia|].
  split.
  { set (sorted := Store.orderBy created_at false
                     (filter (Store.ofProfessional profileId) table)).
    exists (skipn 5 sorted). split.
    - unfold fetched, Dashboard.recentQuery. fold sorted.
      rewrite firstn_skipn. apply sort_perm.
    - pose proof (orderBy_desc_sorted created_at
                    (filter (Store.ofProfessional profileId) table)) as Hs.
      fold sorted in Hs. rewrite <- (firstn_skipn 5 sorted) in Hs.
      apply Forall_forall. intros a Ha.
      apply Forall_forall. intros c Hc.
      exact (@sorted_app_cross _ _ _ _ Hs a c Ha Hc). }
  split.
  { rewrite orZero_eq, sumPrices_sumQ, sumQ_filter.
    apply sumQ_ext. intro c. rewrite inCurrentMonth_bookedThisMonth.
    reflexivity. }
  split; [exact inCurrentMonth_bookedThisMonth|].
  repeat split; vm_compute; reflexivity.
Qed.

End DashboardStats.

(** ** The status update and the actions of the cards *)

Section StatusUpdate.

Import Schema.

Lemma status_of_string_of_status (s : booking_status) :
  status_of_string (string_of_status s) = Some s.
Proof. destruct s; reflexivity. Qed.

Lemma loadBookings_table (profile : option string)
      (net : ProfessionalBookings.Network) (w : ProfessionalBookings.World) :
  ProfessionalBookings.table (ProfessionalBookings.loadBookings profile net w)
  = ProfessionalBookings.table w.
Proof.
  unfold ProfessionalBookings.loadBookings.
  destruct profile; [destruct net|]; reflexivity.
Qed.

Lemma map_unmatched (bookingId : string) (f : Booking -> Booking)
      (t : Store.Table) :
  existsb (Store.hasId bookingId) t = false ->
  map (fun row => if Store.hasId bookingId row then f row else row) t = t.
Proof.
  induction t as [|r t IH]; simpl; intro H.
  - reflexivity.
  - apply orb_false_iff in H. destruct H as [H1 H2].
    rewrite H1, (IH H2). reflexivity.
Qed.

(** C1, as the code has it.  The status update checks nothing: for every
    requested status, whenever the write reaches the store, every row
    with the given id gets that status and the time stamp of the
    request, whatever status it had (no row has the id: no row changes),
    and all other rows stay as they are.  The table is left as it was
    when the write does not reach the store, when the store refuses it,
    or when the text names no status.  What keeps to the transition
    table is the card: for a pending booking it offers cancelled and
    confirmed, for a confirmed one completed, for a cancelled or
    completed one nothing, and each of these is a transition the table
    allows to the professional. *)
Theorem updateBookingStatus_writes_unchecked
        (profile : option string) (now : Z)
        (net' : ProfessionalBookings.Network)
        (bookingId : string) (s : booking_status)
        (w : ProfessionalBookings.World) (item : Booking) :
  ProfessionalBookings.table
    (ProfessionalBookings.updateBookingStatus
       profile now ProfessionalBookings.Delivered net' bookingId
       (string_of_status s) w)
  = map (fun row => if Store.hasId bookingId row
                    then Store.setStatus s now row else row)
        (ProfessionalBookings.table w)
  /\ (forall e text,
        ProfessionalBookings.table
          (ProfessionalBookings.updateBookingStatus
             profile now (ProfessionalBookings.Refused e) net' bookingId
             text w)
        = ProfessionalBookings.table w
        /\ ProfessionalBookings.table
             (ProfessionalBookings.updateBookingStatus
                profile now ProfessionalBookings.Failed net' bookingId
                text w)
           = ProfessionalBookings.table w)
  /\ (forall text,
        status_of_string text = None ->
        ProfessionalBookings.table
          (ProfessionalBookings.updateBookingStatus
             profile now ProfessionalBookings.Delivered net' bookingId
             text w)
        = ProfessionalBookings.table w)
  /\ map UI.onPress (ProfessionalBookings.cardButtons item)
     = match status item with
       | pending =>
           [Some (UI.UpdateBookingStatus (id item)
                                         (string_of_status cancelled));
            Some (UI.UpdateBookingStatus (id item)
                                         (string_of_status confirmed))]
       | confirmed =>
           [Some (UI.UpdateBookingStatus (id item)
                                         (string_of_status completed))]
       | cancelled | completed => []
       end
  /\ Lifecycle.allowedActors pending cancelled
     = [Lifecycle.professional; Lifecycle.client]
  /\ Lifecycle.allowedActors pending confirmed = [Lifecycle.professional]
  /\ Lifecycle.allowedActors confirmed completed = [Lifecycle.professional].
Proof.
  split.
  { unfold ProfessionalBookings.updateBookingStatus, Store.update.
    rewrite status_of_string_of_status.
    destruct (existsb (Store.hasId bookingId) (ProfessionalBookings.table w))
      eqn:E.
    - rewrite loadBookings_table. reflexivity.
    - cbn [ProfessionalBookings.table]. symmetry.
      apply map_unmatched. exact E. }
  split; [intros e text; split; reflexivity|].
  split.
  { intros text H.
    unfold ProfessionalBookings.updateBookingStatus, Store.update.
    rewrite H. reflexivity. }
  split; [|repeat split].
  unfold ProfessionalBookings.cardButtons. destruct (status item); reflexivity.
Qed.

(** C1, as the claim states it, fails: a completed booking is moved to
    confirmed, a transition the table does not list, by the status
    update that the claim says would reject it. *)
Lemma updateBookingStatus_completed_to_confirmed :
  let row := Sample.booking "b1" "2025-03-05" completed 500 None 0 in
  let w := {| ProfessionalBookings.table := [row];
              ProfessionalBookings.bookings := [row];
              ProfessionalBookings.console := [] |} in
  let w' := ProfessionalBookings.updateBookingStatus
              (Some "pro-1"%string) Sample.noon_2025_03_10
              ProfessionalBookings.Delivered ProfessionalBookings.Delivered
              "b1" "confirmed" w in
  Lifecycle.legal completed confirmed = false
  /\ map status (ProfessionalBookings.table w) = [completed]
  /\ map status (ProfessionalBookings.table w') = [confirmed]
  /\ map updated_at (ProfessionalBookings.table w')
     = [Sample.noon_2025_03_10]
  /\ ProfessionalBookings.console w' = [].
Proof.
  repeat split.
Qed.

(** C2, as the code has it.  On the client's bookings screen a booking
    is shown with buttons, Cancelar and Contatar, exactly when it is
    pending; a confirmed booking, like a cancelled or a completed one,
    is shown with no button at all. *)
Theorem client_card_offers_nothing_unless_pending (item : Booking) :
  map UI.label (ClientBookings.cardButtons item)
  = match status item with
    | pending => ["Cancelar"%string; "Contatar"%string]
    | confirmed | cancelled | completed => []
    end
  /\ match status item with
     | pending => List.length (ClientBookings.cardButtons item) = 2%nat
     | confirmed | cancelled | completed =>
         ClientBookings.cardButtons item = []
     end.
Proof.
  unfold ClientBookings.cardButtons, ClientBookings.isStatus.
  destruct (status item); split; reflexivity.
Qed.

(** C2, as the claim states it, fails: the transition table lets the
    client cancel a confirmed booking, and the card of a confirmed
    booking has no button, so none that moves it to cancelled; nor does
    a button of a pending booking's card carry such an action. *)
Lemma client_card_confirmed_has_no_cancel :
  let cancels (b : UI.Button) :=
    match UI.onPress b with
    | Some (UI.UpdateBookingStatus _ s) => String.eqb s "cancelled"
    | None => false
    end in
  let item := Sample.booking "b1" "2025-03-20" confirmed 500 None 0 in
  let item' := Sample.booking "b2" "2025-03-20" pending 500 None 0 in
  Lifecycle.allowedActors confirmed cancelled
  = [Lifecycle.professional; Lifecycle.client]
  /\ ClientBookings.cardButtons item = []
  /\ existsb cancels (ClientBookings.cardButtons item) = false
  /\ existsb cancels (ClientBookings.cardButtons item') = false.
Proof.
  repeat split.
Qed.

End StatusUpdate.

(** ** Worked examples *)

Section Examples.

Import Schema.
Local Open Scope Q_scope.

(** The example of the specification: two completed bookings, one this
    month and one two months ago, and a pending one. *)
Example analytics_of_three_bookings :
  let l := [Sample.booking "b1" "2025-03-05" completed 500 None 0;
            Sample.booking "b2" "2025-03-07" pending 300 None 0;
            Sample.booking "b3" "2025-01-15" completed 200 None 0] in
  let a := Analytics.computeAnalytics Sample.utc Sample.noon_2025_03_10
                                      (Some l) in
  Analytics.totalBookings a = 3%Z
  /\ Analytics.totalRevenue a == 700
  /\ Analytics.completionRate a == 200 # 3
  /\ Analytics.monthlyRevenue a = [0; 0; 0; 200; 0; 500]
  /\ map (fun e => (Analytics.title e, Analytics.bookings e))
         (Analytics.topServices a)
     = [(Analytics.defaultTitle, 2%Z)].
Proof.
  repeat split.
Qed.

(** Month differences are taken between calendar months: a completed
    booking dated later in the current month has difference 0 and is
    added to the last bucket, and one dated in the next month has
    difference -1 and is added to none. *)
Example monthDiff_is_by_calendar_month :
  let later := Sample.booking "b1" "2025-03-20" completed 500 None 0 in
  let next := Sample.booking "b2" "2025-04-02" completed 500 None 0 in
  Analytics.monthDiff Sample.utc Sample.noon_2025_03_10 later = Some 0%Z
  /\ Analytics.monthlyRevenue
       (Analytics.computeAnalytics Sample.utc Sample.noon_2025_03_10
                                   (Some [later]))
     = [0; 0; 0; 0; 0; 500]
  /\ Analytics.monthDiff Sample.utc Sample.noon_2025_03_10 next
     = Some (-1)%Z
  /\ Analytics.monthlyRevenue
       (Analytics.computeAnalytics Sample.utc Sample.noon_2025_03_10
                                   (Some [next]))
     = [0; 0; 0; 0; 0; 0].
Proof.
  repeat split.
Qed.

(** The month of an event is read in local time from the midnight (UTC)
    that starts the event day: three hours behind UTC, the first of
    April reads as the 31st of March. *)
Example first_of_month_west_of_utc :
  let b := Sample.booking "b1" "2025-04-01" completed 500 None 0 in
  JS.getMonth Sample.brt (JS.Date_parse (event_date b)) = Some 2%Z
  /\ JS.getMonth Sample.utc (JS.Date_parse (event_date b)) = Some 3%Z
  /\ Analytics.monthDiff Sample.brt Sample.noon_2025_03_10 b = Some 0%Z
  /\ Analytics.monthDiff Sample.utc Sample.noon_2025_03_10 b = Some (-1)%Z.
Proof.
  repeat split.
Qed.

(** Dates are compared as instants: at noon (UTC) a booking dated today
    is already past, and one dated tomorrow is upcoming. *)
Example booking_of_today_is_past_at_noon :
  let today := Sample.booking "b1" "2025-03-10" confirmed 500 None 0 in
  let tomorrow := Sample.booking "b2" "2025-03-11" confirmed 500 None 0 in
  ClientBookings.filteredBookings ClientBookings.upcoming
    (fun _ => Sample.noon_2025_03_10) [today; tomorrow] = [tomorrow]
  /\ ClientBookings.filteredBookings ClientBookings.past
       (fun _ => Sample.noon_2025_03_10) [today; tomorrow] = [today].
Proof.
  repeat split.
Qed.

(** The entries of a dictionary come with the array-index keys first. *)
Example entries_order :
  map fst (JS.entries [("b"%string, 1%Z); ("10"%string, 2%Z);
                       ("a"%string, 3%Z); ("2"%string, 4%Z)])
  = ["2"%string; "10"%string; "b"%string; "a"%string].
Proof.
  reflexivity.
Qed.

End Examples.

(** ** Event dates by the calendar and as the screens read them *)

Section CalendarDates.

Import Schema.
Local Open Scope Q_scope.

Lemma Date_parse_midnight (s : string) (t : Z) :
  JS.Date_parse s = Some t -> exists k, t = (k * JS.msPerDay)%Z.
Proof.
  unfold JS.Date_parse.
  destruct (list_ascii_of_string s)
    as [|y1 [|y2 [|y3 [|y4 [|s1 [|m1 [|m2 [|s2 [|d1 [|d2 [|? ?]]]]]]]]]]];
    try discriminate.
  destruct (JS.digits4 y1 y2 y3 y4) as [y|]; [|discriminate].
  destruct (JS.digits2 m1 m2) as [m|]; [|discriminate].
  destruct (JS.digits2 d1 d2) as [d|]; [|discriminate].
  destruct (_ && _)%bool; [|discriminate].
  intro H. inversion H. eexists. reflexivity.
Qed.

Lemma Day_midnight (k : Z) : JS.Day (k * JS.msPerDay) = k.
Proof.
  unfold JS.Day. apply Z.div_mul. discriminate.
Qed.

(** East of UTC by less than a day, local time is still on the day that
    the midnight (UTC) starts. *)
Lemma Day_local_midnight (tz : Z -> Z) (s : string) (t : Z) :
  Calendar.eastOfUTC tz ->
  JS.Date_parse s = Some t ->
  JS.Day (JS.LocalTime tz t) = JS.Day t.
Proof.
  intros He Hp. destruct (@Date_parse_midnight _ _ Hp) as [k ->].
  rewrite Day_midnight. unfold JS.LocalTime, JS.Day.
  specialize (He (k * JS.msPerDay)%Z).
  symmetry. apply (Z.div_unique _ _ k (tz (k * JS.msPerDay)%Z)).
  - left. exact He.
  - ring.
Qed.

Lemma getters_east_of_utc (tz : Z -> Z) (s : string) (t : Z) :
  Calendar.eastOfUTC tz ->
  JS.Date_parse s = Some t ->
  JS.YearFromTime (JS.LocalTime tz t) = JS.YearFromTime t
  /\ JS.MonthFromTime (JS.LocalTime tz t) = JS.MonthFromTime t.
Proof.
  intros He Hp. unfold JS.YearFromTime, JS.MonthFromTime.
  rewrite (@Day_local_midnight tz s t He Hp). split; reflexivity.
Qed.

Lemma monthDiff_east_of_utc (tz : Z -> Z) (now : Z) (b : Booking) :
  Calendar.eastOfUTC tz ->
  Analytics.monthDiff tz now b = Calendar.monthDiff tz now (event_date b).
Proof.
  intro He.
  unfold Analytics.monthDiff, Calendar.monthDiff, Calendar.eventYearMonth,
    Calendar.currentYearMonth.
  destruct (JS.Date_parse (event_date b)) as [t|] eqn:Hp; [|reflexivity].
  cbn [JS.getFullYear JS.getMonth option_map JS.add JS.mul JS.sub JS.num2].
  destruct (@getters_east_of_utc tz _ _ He Hp) as [-> ->]. reflexivity.
Qed.

Lemma inCurrentMonth_east_of_utc (tz : Z -> Z) (now : Z) (b : Booking) :
  Calendar.eastOfUTC tz ->
  Dashboard.inCurrentMonth tz now now b = Calendar.countsThisMonth tz now b.
Proof.
  intro He.
  unfold Dashboard.inCurrentMonth, Calendar.countsThisMonth,
    Calendar.inCurrentMonth, Calendar.eventYearMonth,
    Calendar.currentYearMonth.
  destruct (JS.Date_parse (event_date b)) as [t|] eqn:Hp.
  - cbn [JS.getFullYear JS.getMonth option_map JS.strictEq JS.cmp2].
    destruct (@getters_east_of_utc tz _ _ He Hp) as [-> ->].
    rewrite (andb_comm (JS.MonthFromTime t =? _)%Z).
    destruct (status b); reflexivity.
  - reflexivity.
Qed.

Lemma upcoming_by_instants_is_upcoming
      (tz : Z -> Z) (now : Z) (b : Booking) :
  (forall t, (tz t < JS.msPerDay)%Z) ->
  ClientBookings.inTab ClientBookings.upcoming now b = true ->
  Calendar.upcoming tz now b = true.
Proof.
  intros Htz H.
  unfold ClientBookings.inTab, ClientBookings.isUpcoming,
    ClientBookings.isStatus in H.
  unfold Calendar.upcoming, Calendar.notBefore, Calendar.eventDay,
    Calendar.today.
  destruct (JS.Date_parse (event_date b)) as [t|] eqn:Hp;
    [|discriminate H].
  cbn [JS.ge JS.cmp2 option_map] in *.
  unfold JS.ge, JS.cmp2 in H.
  apply andb_true_iff in H. destruct H as [H Hc].
  apply andb_true_iff in H. destruct H as [Hge Hd].
  apply andb_true_iff. split.
  - destruct (@Date_parse_midnight _ _ Hp) as [k ->].
    rewrite Day_midnight. apply Z.leb_le.
    unfold JS.LocalTime, JS.Day.
    specialize (Htz now).
    assert (Hlt : (now + tz now < JS.msPerDay * (k + 1))%Z) by lia.
    apply Z.div_lt_upper_bound in Hlt; [lia|reflexivity].
  - destruct (status b); try reflexivity; discriminate.
Qed.

(** C5.  Where the aggregator departs from the month difference by the
    calendar.  Three hours behind UTC, on 10 March 2025, a completed
    booking dated 2025-04-01 lies in a later month than the current one
    (month difference -1), yet the aggregator gives it month difference
    0 and adds its price to the last bucket; and a completed booking
    dated 2024-10-01 lies five months back (month difference 5), yet
    the aggregator gives it 6 and adds it to no bucket.  The event date
    is parsed as the midnight (UTC) that starts the day and then read
    with the getters of local time.  Where local time is at UTC or east
    of it the aggregator's month difference is the one of the
    calendar. *)
Theorem monthlyRevenue_reads_event_month_in_local_time :
  let april := Sample.booking "b1" "2025-04-01" completed 500 None 0 in
  let october := Sample.booking "b2" "2024-10-01" completed 200 None 0 in
  let now := Sample.noon_2025_03_10 in
  Calendar.currentYearMonth Sample.brt now = (2025, 2)%Z
  /\ Calendar.eventYearMonth (event_date april) = Some (2025, 3)%Z
  /\ Calendar.monthDiff Sample.brt now (event_date april) = Some (-1)%Z
  /\ Analytics.monthDiff Sample.brt now april = Some 0%Z
  /\ Analytics.monthlyRevenue
       (Analytics.computeAnalytics Sample.brt now (Some [april]))
     = [0; 0; 0; 0; 0; 500]
  /\ Calendar.eventYearMonth (event_date october) = Some (2024, 9)%Z
  /\ Calendar.monthDiff Sample.brt now (event_date october) = Some 5%Z
  /\ Analytics.monthDiff Sample.brt now october = Some 6%Z
  /\ Analytics.monthlyRevenue
       (Analytics.computeAnalytics Sample.brt now (Some [october]))
     = [0; 0; 0; 0; 0; 0]
  /\ (forall (tz : Z -> Z) (now : Z) (b : Booking),
        Calendar.eastOfUTC tz ->
        Analytics.monthDiff tz now b
        = Calendar.monthDiff tz now (event_date b)).
Proof.
  cbv zeta. repeat split. exact monthDiff_east_of_utc.
Qed.

(** C7.  Where the tabs depart from the comparison of dates.  At noon
    (UTC) of 10 March 2025 a confirmed booking dated 2025-03-10 has an
    event date that is not before the current date, yet the screen lists
    it under the past tab and not under the upcoming one; and three
    hours behind UTC, at 22:00 of 10 March, the same happens to a
    confirmed booking dated the day after, 2025-03-11.  The event date
    is parsed as the midnight (UTC) that starts the day and compared
    with the current instant.  In the other direction the screen is
    right: a booking it lists as upcoming is upcoming by the
    calendar. *)
Theorem booking_dated_today_is_listed_as_past :
  let today := Sample.booking "b1" "2025-03-10" confirmed 500 None 0 in
  let tomorrow := Sample.booking "b2" "2025-03-11" confirmed 500 None 0 in
  let noon := Sample.noon_2025_03_10 in
  let evening := 1741654800000%Z in
  Calendar.today Sample.utc noon = 20157%Z
  /\ Calendar.eventDay (event_date today) = Some 20157%Z
  /\ Calendar.upcoming Sample.utc noon today = true
  /\ ClientBookings.inTab ClientBookings.upcoming noon today = false
  /\ ClientBookings.filteredBookings ClientBookings.upcoming
       (fun _ => noon) [today] = []
  /\ ClientBookings.filteredBookings ClientBookings.past
       (fun _ => noon) [today] = [today]
  /\ Calendar.today Sample.brt evening = 20157%Z
  /\ Calendar.eventDay (event_date tomorrow) = Some 20158%Z
  /\ Calendar.upcoming Sample.brt evening tomorrow = true
  /\ ClientBookings.inTab ClientBookings.upcoming evening tomorrow = false
  /\ ClientBookings.filteredBookings ClientBookings.past
       (fun _ => evening) [tomorrow] = [tomorrow]
  /\ (forall (tz : Z -> Z) (now : Z) (b : Booking),
        (forall t, (tz t < JS.msPerDay)%Z) ->
        ClientBookings.inTab ClientBookings.upcoming now b = true ->
        Calendar.upcoming tz now b = true).
Proof.
  cbv zeta. repeat split. exact upcoming_by_instants_is_upcoming.
Qed.

(** C10.  Where the monthly revenue of the home screen departs from the
    calendar month.  Three hours behind UTC, on 10 March 2025, a
    professional has two confirmed bookings, one of 300 dated 2025-03-01
    and one of 700 dated 2025-04-01.  Both are fetched; the event date
    of the first falls in the current calendar month and that of the
    second does not, so the revenue of the month is 300; the screen
    counts the second and not the first, and shows 700.  The event date
    is parsed as the midnight (UTC) that starts the day and then read
    with the getters of local time.  Where local time is at UTC or east
    of it the screen counts the bookings of the calendar month. *)
Theorem dashboard_reads_event_month_in_local_time (st0 : Dashboard.Screen) :
  let march := Sample.booking "b1" "2025-03-01" confirmed 300 None 1 in
  let april := Sample.booking "b2" "2025-04-01" confirmed 700 None 2 in
  let now := Sample.noon_2025_03_10 in
  let table := [march; april] in
  let fetched := Dashboard.recentQuery "pro-1" table in
  let st :=
    Dashboard.stats
      (Dashboard.loadDashboardData Sample.brt now now (Some "pro-1"%string)
                                   (Dashboard.served "pro-1" table) st0) in
  fetched = [april; march]
  /\ Dashboard.totalBookings st = 2%Z
  /\ Calendar.currentYearMonth Sample.brt now = (2025, 2)%Z
  /\ Calendar.eventYearMonth (event_date march) = Some (2025, 2)%Z
  /\ Calendar.eventYearMonth (event_date april) = Some (2025, 3)%Z
  /\ filter (Calendar.countsThisMonth Sample.brt now) fetched = [march]
  /\ Analytics.sumPrices
       (filter (Calendar.countsThisMonth Sample.brt now) fetched) == 300
  /\ filter (Dashboard.inCurrentMonth Sample.brt now now) fetched = [april]
  /\ Dashboard.monthlyRevenue st == 700
  /\ (forall (tz : Z -> Z) (now : Z) (b : Booking),
        Calendar.eastOfUTC tz ->
        Dashboard.inCurrentMonth tz now now b
        = Calendar.countsThisMonth tz now b).
Proof.
  cbv zeta. repeat split. exact inCurrentMonth_east_of_utc.
Qed.

End CalendarDates.

(** ** Selecting and clearing toggles *)

Section Toggles.

Lemma includes_without (k k' : string) (l : list string) :
  JS.array_includes (filter (fun f => negb (String.eqb f k)) l) k'
  = (JS.array_includes l k' && negb (String.eqb k' k))%bool.
Proof.
  unfold JS.array_includes. induction l as [|f l IH]; simpl.
  - reflexivity.
  - destruct (String.eqb_spec f k) as [E|E]; simpl.
    + subst f. rewrite IH. destruct (String.eqb k' k); simpl.
      * rewrite andb_false_r. reflexivity.
      * reflexivity.
    + rewrite IH. destruct (String.eqb_spec k' f) as [E'|E']; simpl.
      * subst f. destruct (String.eqb_spec k' k); [contradiction|].
        reflexivity.
      * reflexivity.
Qed.

Lemma includes_with (k k' : string) (l : list string) :
  JS.array_includes (l ++ [k]) k'
  = (JS.array_includes l k' || String.eqb k' k)%bool.
Proof.
  unfold JS.array_includes. rewrite existsb_app. simpl.
  rewrite orb_false_r. reflexivity.
Qed.

Lemma toggle_membership (k k' : string) (prev : list string) :
  JS.array_includes (Search.toggleFilter k prev) k'
  = if String.eqb k' k then negb (JS.array_includes prev k)
    else JS.array_includes prev k'.
Proof.
  unfold Search.toggleFilter.
  destruct (JS.array_includes prev k) eqn:E.
  - rewrite includes_without.
    destruct (String.eqb_spec k' k) as [Ek|Ek]; simpl.
    + apply andb_false_r.
    + apply andb_true_r.
  - rewrite includes_with.
    destruct (String.eqb_spec k' k) as [Ek|Ek]; simpl.
    + apply orb_true_r.
    + apply orb_false_r.
Qed.

(** Toggling a key flips whether that key is selected and leaves every
    other key as it was, selected or not. *)
Theorem toggleFilter_flips_one_key (k k' : string) (prev : list string) :
  JS.array_includes (Search.toggleFilter k prev) k'
  = if String.eqb k' k then negb (JS.array_includes prev k)
    else JS.array_includes prev k'.
Proof.
  exact (toggle_membership k k' prev).
Qed.

Lemma includes_In (k : string) (l : list string) :
  JS.array_includes l k = true <-> In k l.
Proof.
  unfold JS.array_includes. rewrite existsb_exists. split.
  - intros [x [Hin E]]. apply String.eqb_eq in E. subst x. exact Hin.
  - intro Hin. exists k. split; [exact Hin|apply String.eqb_refl].
Qed.

(** A selection without repeated keys stays without repeated keys when a
    key is toggled; so does every selection reached from the empty one. *)
Theorem toggleFilter_keeps_keys_distinct (k : string) (prev : list string) :
  NoDup prev -> NoDup (Search.toggleFilter k prev).
Proof.
  intro H. unfold Search.toggleFilter.
  destruct (JS.array_includes prev k) eqn:E.
  - apply NoDup_filter. exact H.
  - apply NoDup_app; [exact H|constructor; [intros []|constructor]|].
    intros x Hx [Hk|[]]. subst x.
    apply includes_In in Hx. congruence.
Qed.

Lemma toggleFilter_keeps_keys_distinct_witness :
  NoDup ["budget"%string]
  /\ NoDup (Search.toggleFilter "premium" ["budget"%string]).
Proof.
  assert (H : NoDup ["budget"%string]).
  { constructor; [intros []|constructor]. }
  split; [exact H|].
  apply (toggleFilter_keeps_keys_distinct "premium" H).
Defined.

Lemma filterServices_by_membership (q : string) (f g : list string)
      (services : list Search.Service) :
  JS.array_includes f "budget" = JS.array_includes g "budget" ->
  JS.array_includes f "premium" = JS.array_includes g "premium" ->
  Search.filterServices q f services = Search.filterServices q g services.
Proof.
  intros Hb Hp. unfold Search.filterServices. rewrite Hb, Hp. reflexivity.
Qed.

(** Toggling the same key twice brings back the results of the search:
    the same keys are selected as before, and the filter returns the
    same list. *)
Theorem toggleFilter_twice_restores_results
        (q : string) (k : string) (prev : list string)
        (services : list Search.Service) :
  (forall k', JS.array_includes
                (Search.toggleFilter k (Search.toggleFilter k prev)) k'
              = JS.array_includes prev k')
  /\ Search.filterServices q
       (Search.toggleFilter k (Search.toggleFilter k prev)) services
     = Search.filterServices q prev services.
Proof.
  assert (H : forall k', JS.array_includes
                (Search.toggleFilter k (Search.toggleFilter k prev)) k'
              = JS.array_includes prev k').
  { intro k'. rewrite !toggle_membership.
    rewrite String.eqb_refl.
    destruct (String.eqb_spec k' k) as [E|E].
    - subst k'. apply negb_involutive.
    - reflexivity. }
  split; [exact H|].
  apply filterServices_by_membership; apply H.
Qed.

(** A toggle other than budget and premium has no predicate: selecting
    or clearing it never changes what the search returns.  The screen
    offers two such toggles, nearby and available. *)
Theorem toggle_without_predicate_changes_nothing
        (q : string) (k : string) (prev : list string)
        (services : list Search.Service) :
  k <> "budget"%string -> k <> "premium"%string ->
  Search.filterServices q (Search.toggleFilter k prev) services
  = Search.filterServices q prev services.
Proof.
  intros Hb Hp.
  apply filterServices_by_membership; rewrite toggle_membership.
  - destruct (String.eqb_spec "budget" k); [congruence|reflexivity].
  - destruct (String.eqb_spec "premium" k); [congruence|reflexivity].
Qed.

Lemma toggle_without_predicate_changes_nothing_witness :
  Search.filterServices "" (Search.toggleFilter "nearby" ["budget"%string])
                        [Sample.service "s1" 400; Sample.service "s2" 900]
  = Search.filterServices "" ["budget"%string]
                          [Sample.service "s1" 400; Sample.service "s2" 900].
Proof.
  apply (toggle_without_predicate_changes_nothing
           "" (k := "nearby") ["budget"%string]
           [Sample.service "s1" 400; Sample.service "s2" 900]);
    discriminate.
Defined.

End Toggles.

(** ** The chart of the analytics screen *)

Section ChartFacts.

Import Schema.
Local Open Scope Q_scope.

Variable tz : Z -> Z.
Variable now : Z.

Lemma monthlyRevenue_by_bucket (l : list Booking) :
  Analytics.monthlyRevenue (Analytics.computeAnalytics tz now (Some l))
  = map (fun i => Analytics.sumPrices (filter (Spec.inBucket tz now i) l))
        (seq 0 6).
Proof.
  cbn [Analytics.computeAnalytics Analytics.monthlyRevenue].
  apply (eq_map_seq 0).
  - rewrite fold_addMonthly_length. reflexivity.
  - intros i Hi. rewrite fold_addMonthly_nth by (simpl; exact Hi).
    rewrite filter_filter.
    replace (nth i (repeat 0 6) 0) with 0
      by (do 6 (destruct i as [|i]; [reflexivity|]); simpl in Hi; lia).
    reflexivity.
Qed.

Lemma bucket_sum (i : nat) (l : list Booking) :
  Analytics.sumPrices (filter (Spec.inBucket tz now i) l)
  == Spec.sumQ (map (fun b => if Spec.inBucket tz now i b
                              then total_price b else 0) l).
Proof.
  rewrite sumPrices_sumQ. apply sumQ_filter.
Qed.

Lemma sumQ_le (A : Type) (f g : A -> Q) (l : list A) :
  (forall x, In x l -> f x <= g x) ->
  Spec.sumQ (map f l) <= Spec.sumQ (map g l).
Proof.
  induction l as [|x l IH]; cbn [map Spec.sumQ]; intro H.
  - apply Qle_refl.
  - apply Qplus_le_compat.
    + apply H. left. reflexivity.
    + apply IH. intros y Hy. apply H. right. exact Hy.
Qed.

Lemma sumQ_zero (A : Type) (l : list A) :
  Spec.sumQ (map (fun _ : A => 0) l) == 0.
Proof.
  induction l as [|x l IH]; cbn [map Spec.sumQ]; [reflexivity|].
  rewrite IH. ring.
Qed.

Lemma Math_max_empty (arr : list Q) :
  AnalyticsView.Math_max arr = None -> arr = [].
Proof.
  destruct arr as [|x arr]; [reflexivity|].
  cbn [AnalyticsView.Math_max].
  destruct (AnalyticsView.Math_max arr); discriminate.
Qed.

Lemma Math_max_greatest (arr : list Q) (m : Q) :
  AnalyticsView.Math_max arr = Some m ->
  In m arr /\ forall x, In x arr -> x <= m.
Proof.
  revert m; induction arr as [|x arr IH]; intros m H;
    cbn [AnalyticsView.Math_max] in H.
  - discriminate.
  - destruct (AnalyticsView.Math_max arr) as [m'|] eqn:E.
    + destruct (IH m' eq_refl) as [Hin Hle].
      destruct (Qle_bool m' x) eqn:C; inversion H; subst m; clear H.
      * apply Qle_bool_iff in C. split; [left; reflexivity|].
        intros y [<-|Hy]; [apply Qle_refl|].
        apply Qle_trans with m'; [apply Hle; exact Hy|exact C].
      * assert (Hlt : x < m').
        { apply Qnot_le_lt. intro Hc. apply Qle_bool_iff in Hc.
          congruence. }
        split; [right; exact Hin|].
        intros y [<-|Hy]; [apply Qlt_le_weak; exact Hlt|].
        apply Hle. exact Hy.
    + apply Math_max_empty in E. subst arr. inversion H; subst m.
      split; [left; reflexivity|].
      intros y [<-|[]]. apply Qle_refl.
Qed.

Lemma share_bounds (x m : Q) :
  0 <= x -> x <= m -> 0 < m -> 0 <= x / m * 100 /\ x / m * 100 <= 100.
Proof.
  intros H0 Hm Hpos.
  assert (Ha : 0 <= x / m).
  { apply Qle_shift_div_l; [exact Hpos|]. rewrite Qmult_0_l. exact H0. }
  assert (Hb : x / m <= 1).
  { apply Qle_shift_div_r; [exact Hpos|]. rewrite Qmult_1_l. exact Hm. }
  split.
  - apply Qmult_le_0_compat; [exact Ha|discriminate].
  - setoid_replace 100 with (1 * 100) at 2 by ring.
    apply Qmult_le_compat_r; [exact Hb|discriminate].
Qed.

Lemma barHeights_facts (monthlyRevenue : list Q) :
  (forall x, In x monthlyRevenue -> 0 <= x) ->
  List.length (AnalyticsView.barHeights monthlyRevenue)
  = List.length monthlyRevenue
  /\ (forall h, In h (AnalyticsView.barHeights monthlyRevenue) ->
        0 <= h /\ h <= 100)
  /\ ((exists x, In x monthlyRevenue /\ 0 < x) ->
      exists h, In h (AnalyticsView.barHeights monthlyRevenue) /\ h == 100)
  /\ ((forall x, In x monthlyRevenue -> x <= 0) ->
      forall h, In h (AnalyticsView.barHeights monthlyRevenue) -> h = 0).
Proof.
  intro Hnn. unfold AnalyticsView.barHeights.
  split; [apply length_map|].
  destruct (AnalyticsView.Math_max monthlyRevenue) as [m|] eqn:E.
  - destruct (Math_max_greatest _ E) as [Hin Hle].
    split; [|split].
    + intros h Hh. apply in_map_iff in Hh. destruct Hh as [x [<- Hx]].
      unfold AnalyticsView.barHeight. rewrite E.
      destruct (Qle_bool m 0) eqn:C; cbn [negb].
      * split; [apply Qle_refl|discriminate].
      * apply share_bounds; [apply Hnn; exact Hx|apply Hle; exact Hx|].
        apply Qnot_le_lt. intro Hc. apply Qle_bool_iff in Hc. congruence.
    + intros [x [Hx Hpos]].
      exists (AnalyticsView.barHeight monthlyRevenue m).
      split; [apply in_map; exact Hin|].
      unfold AnalyticsView.barHeight. rewrite E.
      assert (Hm : 0 < m).
      { apply Qlt_le_trans with x; [exact Hpos|apply Hle; exact Hx]. }
      destruct (Qle_bool m 0) eqn:C; cbn [negb].
      * apply Qle_bool_iff in C. exfalso.
        apply (Qlt_irrefl 0). apply Qlt_le_trans with m; assumption.
      * field. intro Hz. rewrite Hz in Hm. apply (Qlt_irrefl 0). exact Hm.
    + intros Hall h Hh. apply in_map_iff in Hh.
      destruct Hh as [x [<- Hx]].
      unfold AnalyticsView.barHeight. rewrite E.
      assert (C : Qle_bool m 0 = true).
      { apply Qle_bool_iff. apply Hall. exact Hin. }
      rewrite C. reflexivity.
  - apply Math_max_empty in E. subst monthlyRevenue.
    split; [intros h []|]. split; [intros [x [[] _]]|intros _ h []].
Qed.

(** The bars of the chart, for revenues that are not negative: every bar
    is between 0 and 100 percent high; when some revenue is positive,
    the bar of the largest revenue is 100 percent high; and when no
    revenue is positive every bar is 0 (nothing is divided by 0). *)
Theorem barHeights_between_0_and_100 (monthlyRevenue : list Q) :
  (forall x, In x monthlyRevenue -> 0 <= x) ->
  List.length (AnalyticsView.barHeights monthlyRevenue)
  = List.length monthlyRevenue
  /\ (forall h, In h (AnalyticsView.barHeights monthlyRevenue) ->
        0 <= h /\ h <= 100)
  /\ ((exists x, In x monthlyRevenue /\ 0 < x) ->
      exists h, In h (AnalyticsView.barHeights monthlyRevenue) /\ h == 100)
  /\ ((forall x, In x monthlyRevenue -> x <= 0) ->
      forall h, In h (AnalyticsView.barHeights monthlyRevenue) -> h = 0).
Proof.
  exact (barHeights_facts monthlyRevenue).
Qed.

Lemma barHeights_between_0_and_100_witness :
  exists h, In h (AnalyticsView.barHeights [0; 200; 500]) /\ h == 100.
Proof.
  assert (H : forall x, In x [0; 200; 500] -> 0 <= x).
  { intros x [<-|[<-|[<-|[]]]]; discriminate. }
  apply (proj1 (proj2 (proj2 (barHeights_between_0_and_100 [0; 200; 500] H)))).
  exists 500. split; [right; right; left; reflexivity|reflexivity].
Defined.

(** When no booking has a negative price, the total revenue and the six
    monthly revenues are not negative, and every bar of the chart is
    between 0 and 100 percent high. *)
Theorem chart_of_nonnegative_prices (l : list Booking) :
  (forall b, In b l -> 0 <= total_price b) ->
  let a := Analytics.computeAnalytics tz now (Some l) in
  0 <= Analytics.totalRevenue a
  /\ (forall r, In r (Analytics.monthlyRevenue a) -> 0 <= r)
  /\ (forall h, In h (AnalyticsView.barHeights (Analytics.monthlyRevenue a))
                -> 0 <= h /\ h <= 100).
Proof.
  intros Hnn a.
  assert (Hb : forall r, In r (Analytics.monthlyRevenue a) -> 0 <= r).
  { intros r Hr. unfold a in Hr. rewrite monthlyRevenue_by_bucket in Hr.
    apply in_map_iff in Hr. destruct Hr as [i [<- _]].
    rewrite bucket_sum. rewrite <- (sumQ_zero l).
    apply sumQ_le. intros b Hb.
    destruct (Spec.inBucket tz now i b); [apply Hnn; exact Hb|apply Qle_refl]. }
  split; [|split; [exact Hb|apply (barHeights_facts _ Hb)]].
  unfold a. cbn [Analytics.computeAnalytics Analytics.totalRevenue].
  rewrite sumPrices_sumQ, sumQ_filter. rewrite <- (sumQ_zero l).
  apply sumQ_le. intros b Hb'.
  destruct (Analytics.isCompleted b); [apply Hnn; exact Hb'|apply Qle_refl].
Qed.

End ChartFacts.

Lemma chart_of_nonnegative_prices_witness :
  let l := [Sample.booking "b1" "2025-03-05" Schema.completed 500 None 0;
            Sample.booking "b2" "2025-01-15" Schema.completed 200 None 0] in
  let a := Analytics.computeAnalytics Sample.utc Sample.noon_2025_03_10
                                      (Some l) in
  (0 <= nth 3 (Analytics.monthlyRevenue a) 0)%Q
  /\ (0 <= nth 5 (Analytics.monthlyRevenue a) 0)%Q.
Proof.
  cbv zeta.
  assert (H : forall b,
             In b [Sample.booking "b1" "2025-03-05" Schema.completed 500 None 0;
                   Sample.booking "b2" "2025-01-15" Schema.completed 200 None 0]
             -> (0 <= Schema.total_price b)%Q).
  { intros b [<-|[<-|[]]]; discriminate. }
  split;
    apply (proj1 (proj2 (chart_of_nonnegative_prices
                           Sample.utc Sample.noon_2025_03_10 _ H)));
    vm_compute; tauto.
Defined.

(** ** The order of the records *)

Section OrderIndependence.

Import Schema.
Local Open Scope Q_scope.

Variable tz : Z -> Z.
Variable now : Z.

Lemma filter_perm (A : Type) (p : A -> bool) (l l' : list A) :
  Permutation l l' -> Permutation (filter p l) (filter p l').
Proof.
  induction 1 as [|x l l' _ IH|x y l|l l' l'' _ IH1 _ IH2]; cbn [filter].
  - constructor.
  - destruct (p x); [constructor|]; exact IH.
  - destruct (p x), (p y); try apply Permutation_refl. apply perm_swap.
  - exact (Permutation_trans IH1 IH2).
Qed.

Lemma countIf_perm (A : Type) (p : A -> bool) (l l' : list A) :
  Permutation l l' -> Spec.countIf p l = Spec.countIf p l'.
Proof.
  induction 1 as [|x l l' _ IH|x y l|l l' l'' _ IH1 _ IH2];
    cbn [Spec.countIf]; lia.
Qed.

(** The analytics query asks for no order.  Two replies with the same
    records in different orders give the same number of bookings and the
    same completion rate, and the total revenue and each of the six
    monthly revenues are running sums over the same records, taken in
    the order of the reply. *)
Theorem analytics_counts_do_not_depend_on_order (l l' : list Booking) :
  Permutation l l' ->
  let a := Analytics.computeAnalytics tz now (Some l) in
  let a' := Analytics.computeAnalytics tz now (Some l') in
  Analytics.totalBookings a = Analytics.totalBookings a'
  /\ Analytics.completionRate a = Analytics.completionRate a'
  /\ Analytics.totalRevenue a
     = Analytics.sumPrices (filter Analytics.isCompleted l)
  /\ Analytics.totalRevenue a'
     = Analytics.sumPrices (filter Analytics.isCompleted l')
  /\ Permutation (filter Analytics.isCompleted l)
                 (filter Analytics.isCompleted l')
  /\ Analytics.monthlyRevenue a
     = map (fun i => Analytics.sumPrices (filter (Spec.inBucket tz now i) l))
           (seq 0 6)
  /\ Analytics.monthlyRevenue a'
     = map (fun i => Analytics.sumPrices (filter (Spec.inBucket tz now i) l'))
           (seq 0 6)
  /\ (forall i, Permutation (filter (Spec.inBucket tz now i) l)
                            (filter (Spec.inBucket tz now i) l')).
Proof.
  intros P a a'.
  assert (Hlen : Analytics.len l = Analytics.len l').
  { unfold Analytics.len. rewrite (Permutation_length P). reflexivity. }
  split; [exact Hlen|]. split.
  { unfold a, a'.
    cbn [Analytics.computeAnalytics Analytics.completionRate].
    rewrite !(len_filter_countIf Analytics.isCompleted).
    rewrite (countIf_perm Analytics.isCompleted P), Hlen. reflexivity. }
  split; [reflexivity|]. split; [reflexivity|].
  split; [apply filter_perm; exact P|].
  split; [apply monthlyRevenue_by_bucket|].
  split; [apply monthlyRevenue_by_bucket|].
  intro i. apply filter_perm. exact P.
Qed.

End OrderIndependence.

Lemma analytics_counts_do_not_depend_on_order_witness :
  let b1 := Sample.booking "b1" "2025-03-05" Schema.completed 500 None 0 in
  let b2 := Sample.booking "b2" "2025-01-15" Schema.pending 200 None 0 in
  let b3 := Sample.booking "b3" "2025-02-20" Schema.completed 300 None 0 in
  Analytics.completionRate
    (Analytics.computeAnalytics Sample.utc Sample.noon_2025_03_10
                                (Some [b1; b2; b3]))
  = Analytics.completionRate
      (Analytics.computeAnalytics Sample.utc Sample.noon_2025_03_10
                                  (Some [b3; b1; b2]))
  /\ Permutation (filter Analytics.isCompleted [b1; b2; b3])
                 (filter Analytics.isCompleted [b3; b1; b2]).
Proof.
  cbv zeta.
  assert (P : Permutation
                [Sample.booking "b1" "2025-03-05" Schema.completed 500 None 0;
                 Sample.booking "b2" "2025-01-15" Schema.pending 200 None 0;
                 Sample.booking "b3" "2025-02-20" Schema.completed 300 None 0]
                [Sample.booking "b3" "2025-02-20" Schema.completed 300 None 0;
                 Sample.booking "b1" "2025-03-05" Schema.completed 500 None 0;
                 Sample.booking "b2" "2025-01-15" Schema.pending 200 None 0]).
  { apply Permutation_sym.
    apply (Permutation_cons_app [_; _] []). apply Permutation_refl. }
  split.
  - exact (proj1 (proj2 (analytics_counts_do_not_depend_on_order
                           Sample.utc Sample.noon_2025_03_10 P))).
  - exact (proj1 (proj2 (proj2 (proj2 (proj2
             (analytics_counts_do_not_depend_on_order
                Sample.utc Sample.noon_2025_03_10 P)))))).
Defined.

(** ** The labels of the chart *)

Section MonthLabels.

Import Schema.
Local Open Scope Z_scope.

Variable tz : Z -> Z.
Variable now : Z.

Lemma MonthFromTime_range (t : Z) : 0 <= JS.MonthFromTime t <= 11.
Proof.
  unfold JS.MonthFromTime, JS.CivilFromDays.
  set (z := JS.Day t + 719468).
  set (era := z / 146097).
  set (doe := z - era * 146097).
  assert (Hdoe : 0 <= doe <= 146096).
  { unfold doe, era. pose proof (Z.mod_pos_bound z 146097 ltac:(lia)) as H.
    rewrite Z.mod_eq in H by lia. lia. }
  clearbody doe. clear z era. cbv zeta.
  match goal with
  | |- context [if ?c then _ else _] => destruct c eqn:E
  end.
  - apply Z.ltb_lt in E. Z.to_euclidean_division_equations. lia.
  - apply Z.ltb_ge in E. Z.to_euclidean_division_equations. lia.
Qed.

Lemma at_index_months (m : Z) :
  0 <= m <= 11 ->
  exists name, AnalyticsView.at_index AnalyticsView.months m = Some name.
Proof.
  intro H. unfold AnalyticsView.at_index.
  destruct (m <? 0) eqn:E; [lia|].
  destruct (nth_error AnalyticsView.months (Z.to_nat m)) as [name|] eqn:N.
  - exists name. reflexivity.
  - apply nth_error_None in N. simpl in N. lia.
Qed.

(** Every one of the six bars has a month name under it (never a missing
    one), whatever the current month: the index computed for bar
    [monthIndex] stays within January to December also when it reaches
    back into the previous year.  Bar [monthIndex] is labelled with
    month [(currentMonth + monthIndex + 7) mod 12], so the last bar with
    the current month. *)
Theorem getMonthName_is_a_month (monthIndex : Z) :
  0 <= monthIndex < 6 ->
  let currentMonth := JS.MonthFromTime (JS.LocalTime tz now) in
  AnalyticsView.getMonthName tz now monthIndex
  = AnalyticsView.at_index AnalyticsView.months
                           ((currentMonth + monthIndex + 7) mod 12)
  /\ (exists name, AnalyticsView.getMonthName tz now monthIndex = Some name)
  /\ AnalyticsView.getMonthName tz now 5
     = AnalyticsView.at_index AnalyticsView.months currentMonth.
Proof.
  intros Hi currentMonth.
  pose proof (MonthFromTime_range (JS.LocalTime tz now)) as Hm.
  fold currentMonth in Hm.
  assert (E : forall i, 0 <= i < 6 ->
            Z.rem (currentMonth - (5 - i) + 12) 12
            = (currentMonth + i + 7) mod 12).
  { intros i Hi'. rewrite Z.rem_mod_nonneg by lia. f_equal. lia. }
  unfold AnalyticsView.getMonthName. fold currentMonth.
  split; [rewrite (E _ Hi); reflexivity|]. split.
  - rewrite (E _ Hi). apply at_index_months.
    pose proof (Z.mod_pos_bound (currentMonth + monthIndex + 7) 12
                                ltac:(lia)). lia.
  - rewrite (E 5) by lia.
    replace (currentMonth + 5 + 7) with (currentMonth + 1 * 12) by lia.
    rewrite Z.mod_add by lia. rewrite Z.mod_small by lia. reflexivity.
Qed.

(** The label under a bar names the month of the bookings counted in it:
    a record added to bucket [i] has its event, as the aggregator reads
    it, in the month that [getMonthName i] names (the two readings of
    the clock being the same). *)
Theorem bucket_label_names_event_month (i : nat) (b : Booking) :
  Spec.inBucket tz now i b = true ->
  exists m,
    Chart.eventMonth tz b = Some m
    /\ AnalyticsView.getMonthName tz now (Z.of_nat i)
       = AnalyticsView.at_index AnalyticsView.months m.
Proof.
  unfold Spec.inBucket, Spec.hitsBucket, Analytics.monthDiff,
    Chart.eventMonth.
  intro H. apply andb_true_iff in H. destruct H as [_ H].
  destruct (JS.Date_parse (event_date b)) as [t|]; [|discriminate].
  cbn [JS.getFullYear JS.getMonth option_map JS.sub JS.mul JS.add JS.num2]
    in *.
  apply andb_true_iff in H. destruct H as [H Hi].
  apply andb_true_iff in H. destruct H as [H0 H6].
  pose proof (MonthFromTime_range (JS.LocalTime tz now)) as Hc.
  pose proof (MonthFromTime_range (JS.LocalTime tz t)) as He.
  exists (JS.MonthFromTime (JS.LocalTime tz t)). split; [reflexivity|].
  unfold AnalyticsView.getMonthName. f_equal.
  set (mc := JS.MonthFromTime (JS.LocalTime tz now)) in *.
  set (me := JS.MonthFromTime (JS.LocalTime tz t)) in *.
  set (dy := JS.YearFromTime (JS.LocalTime tz now)
             - JS.YearFromTime (JS.LocalTime tz t)) in *.
  rewrite Z.rem_mod_nonneg by lia.
  replace (mc - (5 - Z.of_nat i) + 12) with (me + (1 - dy) * 12) by lia.
  rewrite Z.mod_add by lia. apply Z.mod_small. lia.
Qed.

End MonthLabels.

Lemma getMonthName_is_a_month_witness :
  exists name,
    AnalyticsView.getMonthName Sample.utc Sample.noon_2025_03_10 0
    = Some name.
Proof.
  assert (H : (0 <= 0 < 6)%Z) by lia.
  exact (proj1 (proj2 (@getMonthName_is_a_month Sample.utc
                          Sample.noon_2025_03_10 0%Z H))).
Defined.


Lemma bucket_label_names_event_month_witness :
  let b := Sample.booking "b1" "2025-01-15" Schema.completed 200 None 0 in
  exists m,
    Chart.eventMonth Sample.utc b = Some m
    /\ AnalyticsView.getMonthName Sample.utc Sample.noon_2025_03_10
                                  (Z.of_nat 3)
       = AnalyticsView.at_index AnalyticsView.months m.
Proof.
  cbv zeta.
  apply (bucket_label_names_event_month Sample.utc Sample.noon_2025_03_10 3).
  reflexivity.
Defined.

(** ** Status updates, one after another *)

Section StatusUpdates.

Import Schema.

Variable profile : option string.

Definition writeTo (bookingId : string) (s : booking_status) (now : Z)
           (t : Store.Table) : Store.Table :=
  map (fun row => if Store.hasId bookingId row
                  then Store.setStatus s now row else row) t.

Lemma update_table (now : Z) (net' : ProfessionalBookings.Network)
      (bookingId : string) (s : booking_status)
      (w : ProfessionalBookings.World) :
  ProfessionalBookings.table
    (ProfessionalBookings.updateBookingStatus
       profile now ProfessionalBookings.Delivered net' bookingId
       (string_of_status s) w)
  = writeTo bookingId s now (ProfessionalBookings.table w).
Proof.
  unfold ProfessionalBookings.updateBookingStatus, Store.update, writeTo.
  rewrite status_of_string_of_status.
  destruct (existsb (Store.hasId bookingId) (ProfessionalBookings.table w))
    eqn:E.
  - rewrite loadBookings_table. reflexivity.
  - cbn [ProfessionalBookings.table]. symmetry.
    apply map_unmatched. exact E.
Qed.

Lemma update_table_any (now : Z) (net net' : ProfessionalBookings.Network)
      (bookingId text : string) (w : ProfessionalBookings.World) :
  ProfessionalBookings.table
    (ProfessionalBookings.updateBookingStatus
       profile now net net' bookingId text w)
  = ProfessionalBookings.table w
  \/ exists s,
       ProfessionalBookings.table
         (ProfessionalBookings.updateBookingStatus
            profile now net net' bookingId text w)
       = writeTo bookingId s now (ProfessionalBookings.table w).
Proof.
  unfold ProfessionalBookings.updateBookingStatus, Store.update.
  destruct net; try (left; reflexivity).
  destruct (status_of_string text) as [s|]; [|left; reflexivity].
  destruct (existsb (Store.hasId bookingId) (ProfessionalBookings.table w));
    [|left; reflexivity].
  right. exists s. rewrite loadBookings_table. reflexivity.
Qed.

Lemma writeTo_fixed (bookingId : string) (s : booking_status) (now : Z)
      (t : Store.Table) :
  map Columns.fixed (writeTo bookingId s now t) = map Columns.fixed t.
Proof.
  unfold writeTo. rewrite map_map. apply map_ext. intro row.
  destruct (Store.hasId bookingId row); reflexivity.
Qed.

(** A status update adds no booking and removes none, and changes no
    column of any booking but the status and the update time stamp:
    ids, parties, service, schedule, guests, place, price and notes are
    after the update what they were before, whatever was requested and
    however the request went. *)
Theorem updateBookingStatus_keeps_rows_and_columns
        (now : Z) (net net' : ProfessionalBookings.Network)
        (bookingId text : string) (w : ProfessionalBookings.World) :
  let w' := ProfessionalBookings.updateBookingStatus
              profile now net net' bookingId text w in
  map Columns.fixed (ProfessionalBookings.table w')
  = map Columns.fixed (ProfessionalBookings.table w)
  /\ List.length (ProfessionalBookings.table w')
     = List.length (ProfessionalBookings.table w).
Proof.
  cbv zeta.
  assert (H : map Columns.fixed
                (ProfessionalBookings.table
                   (ProfessionalBookings.updateBookingStatus
                      profile now net net' bookingId text w))
              = map Columns.fixed (ProfessionalBookings.table w)).
  { destruct (update_table_any now net net' bookingId text w) as [E|[s E]];
      rewrite E; [reflexivity|apply writeTo_fixed]. }
  split; [exact H|].
  rewrite <- (length_map Columns.fixed), H. apply length_map.
Qed.

Lemma hasId_setStatus (bookingId : string) (s : booking_status) (now : Z)
      (row : Booking) :
  Store.hasId bookingId (Store.setStatus s now row)
  = Store.hasId bookingId row.
Proof. reflexivity. Qed.

(** Of two status updates of the same booking that both reach the
    store, the later one wins: the table is what the later update alone
    would have made of it, with its status and its time stamp, and
    nothing of the earlier request is left.  Repeating an update, at
    the same instant, changes nothing more. *)
Theorem later_status_update_wins
        (now1 now2 : Z) (net1 net2 : ProfessionalBookings.Network)
        (bookingId : string) (s1 s2 : booking_status)
        (w : ProfessionalBookings.World) :
  let first u := ProfessionalBookings.updateBookingStatus
                   profile now1 ProfessionalBookings.Delivered net1
                   bookingId (string_of_status s1) u in
  let second u := ProfessionalBookings.updateBookingStatus
                    profile now2 ProfessionalBookings.Delivered net2
                    bookingId (string_of_status s2) u in
  ProfessionalBookings.table (second (first w))
  = ProfessionalBookings.table (second w)
  /\ ProfessionalBookings.table (first (first w))
     = ProfessionalBookings.table (first w).
Proof.
  cbv zeta. rewrite !update_table. unfold writeTo. rewrite !map_map.
  split; apply map_ext; intro row;
    destruct (Store.hasId bookingId row) eqn:E;
    rewrite ?hasId_setStatus, E; reflexivity.
Qed.

(** A status update that does not get through -- the request fails, the
    store refuses it, or the text names no status -- leaves the stored
    bookings and the list on the screen as they were and writes one
    line to the console.  One that gets through while the refresh after
    it does not leaves the screen showing the list from before the
    update. *)
Theorem failed_status_update_changes_nothing
        (now : Z) (net' : ProfessionalBookings.Network)
        (bookingId text : string) (e : string) (s : booking_status)
        (w : ProfessionalBookings.World) :
  let logged :=
    {| ProfessionalBookings.table := ProfessionalBookings.table w;
       ProfessionalBookings.bookings := ProfessionalBookings.bookings w;
       ProfessionalBookings.console :=
         ProfessionalBookings.console w ++ ["Error updating booking:"%string]
    |} in
  ProfessionalBookings.updateBookingStatus
    profile now ProfessionalBookings.Failed net' bookingId text w = logged
  /\ ProfessionalBookings.updateBookingStatus
       profile now (ProfessionalBookings.Refused e) net' bookingId text w
     = logged
  /\ (status_of_string text = None ->
      ProfessionalBookings.updateBookingStatus
        profile now ProfessionalBookings.Delivered net' bookingId text w
      = logged)
  /\ ProfessionalBookings.bookings
       (ProfessionalBookings.updateBookingStatus
          profile now ProfessionalBookings.Delivered
          ProfessionalBookings.Failed bookingId (string_of_status s) w)
     = ProfessionalBookings.bookings w.
Proof.
  cbv zeta. split; [reflexivity|]. split; [reflexivity|]. split.
  - intro H. unfold ProfessionalBookings.updateBookingStatus, Store.update.
    rewrite H. reflexivity.
  - unfold ProfessionalBookings.updateBookingStatus, Store.update.
    rewrite status_of_string_of_status.
    destruct (existsb (Store.hasId bookingId) (ProfessionalBookings.table w));
      [|reflexivity].
    unfold ProfessionalBookings.loadBookings.
    destruct profile; reflexivity.
Qed.

End StatusUpdates.

(** ** The lists of bookings on the screens *)

Section BookingLists.

Import Schema.

Lemma orderBy_asc_sorted (key : Booking -> Z) (rows : Store.Table) :
  StronglySorted (fun a b => (key a <= key b)%Z)
                 (Store.orderBy key true rows).
Proof.
  unfold Store.orderBy. apply sort_sorted.
  - intros x y z H1 H2. lia.
  - intros x y H. apply inject_Z_nonpos in H. lia.
  - intros x y H.
    destruct (Z.le_gt_cases (key x - key y) 0) as [Hle|Hgt]; [|lia].
    apply inject_Z_nonpos in Hle. congruence.
Qed.

Lemma orderBy_perm (key : Booking -> Z) (asc : bool) (rows : Store.Table) :
  Permutation (Store.orderBy key asc rows) rows.
Proof. unfold Store.orderBy. apply sort_perm. Qed.

(** What a screen lists after its bookings are loaded: exactly the
    stored bookings of the signed-in professional (of the signed-in
    client, on the client's screen), each as often as it is stored, the
    professional's by event date with the earliest first and the
    client's with the latest first.  When the query is not answered the
    list stays as it was. *)
Theorem loaded_bookings_are_own_and_in_date_order
        (profileId : string) (w : ProfessionalBookings.World)
        (t : Store.Table) (shown : list Booking) :
  let w' := ProfessionalBookings.loadBookings
              (Some profileId) ProfessionalBookings.Delivered w in
  let mine := ClientLoad.loadBookings (Some profileId) true t shown in
  Permutation (ProfessionalBookings.bookings w')
              (filter (Store.ofProfessional profileId)
                      (ProfessionalBookings.table w))
  /\ StronglySorted (fun a b => (Store.eventDay a <= Store.eventDay b)%Z)
                    (ProfessionalBookings.bookings w')
  /\ Forall (fun b => professional_id b = profileId)
            (ProfessionalBookings.bookings w')
  /\ ProfessionalBookings.bookings
       (ProfessionalBookings.loadBookings
          (Some profileId) ProfessionalBookings.Failed w)
     = ProfessionalBookings.bookings w
  /\ Permutation mine (filter (ClientLoad.ofClient profileId) t)
  /\ StronglySorted (fun a b => (Store.eventDay b <= Store.eventDay a)%Z)
                    mine
  /\ Forall (fun b => client_id b = profileId) mine
  /\ ClientLoad.loadBookings (Some profileId) false t shown = shown.
Proof.
  cbv zeta.
  cbn [ProfessionalBookings.loadBookings ProfessionalBookings.bookings
       ClientLoad.loadBookings].
  unfold ProfessionalBookings.selectBookings, ClientLoad.selectBookings.
  split; [apply orderBy_perm|]. split; [apply orderBy_asc_sorted|].
  split.
  { apply Forall_forall. intros b Hb.
    apply (Permutation_in _ (orderBy_perm _ _ _)) in Hb.
    apply filter_In in Hb. destruct Hb as [_ Hb].
    apply String.eqb_eq. exact Hb. }
  split; [reflexivity|].
  split; [apply orderBy_perm|]. split; [apply orderBy_desc_sorted|].
  split; [|reflexivity].
  apply Forall_forall. intros b Hb.
  apply (Permutation_in _ (orderBy_perm _ _ _)) in Hb.
  apply filter_In in Hb. destruct Hb as [_ Hb].
  apply String.eqb_eq. exact Hb.
Qed.

(** Once a status update of a stored booking has gone through and the
    list is refreshed, the screen shows that booking with the new
    status, and with no other: it is under the pending tab only if
    pending was what was requested.  So a booking that was accepted,
    declined or finished is gone from the tab it was acted on. *)
Theorem updated_booking_shows_new_status
        (profileId : string) (now : Z) (bookingId : string)
        (s : booking_status) (w : ProfessionalBookings.World) :
  existsb (Store.hasId bookingId) (ProfessionalBookings.table w) = true ->
  let w' := ProfessionalBookings.updateBookingStatus
              (Some profileId) now ProfessionalBookings.Delivered
              ProfessionalBookings.Delivered bookingId
              (string_of_status s) w in
  Forall (fun b => Store.hasId bookingId b = true -> status b = s)
         (ProfessionalBookings.bookings w')
  /\ (s <> pending ->
      Forall (fun b => Store.hasId bookingId b = false)
             (ProfessionalTabs.filteredBookings
                ProfessionalTabs.pendingTab
                (ProfessionalBookings.bookings w')))
  /\ (s <> confirmed ->
      Forall (fun b => Store.hasId bookingId b = false)
             (ProfessionalTabs.filteredBookings
                ProfessionalTabs.confirmedTab
                (ProfessionalBookings.bookings w'))).
Proof.
  intros Hex w'.
  assert (H : Forall (fun b => Store.hasId bookingId b = true -> status b = s)
                     (ProfessionalBookings.bookings w')).
  { unfold w', ProfessionalBookings.updateBookingStatus, Store.update.
    rewrite status_of_string_of_status, Hex.
    cbn [ProfessionalBookings.loadBookings ProfessionalBookings.bookings
         ProfessionalBookings.table].
    unfold ProfessionalBookings.selectBookings.
    apply Forall_forall. intros b Hb Hid.
    apply (Permutation_in _ (orderBy_perm _ _ _)) in Hb.
    apply filter_In in Hb. destruct Hb as [Hb _].
    apply in_map_iff in Hb. destruct Hb as [row [E _]].
    destruct (Store.hasId bookingId row) eqn:R; subst b.
    - reflexivity.
    - congruence. }
  split; [exact H|].
  rewrite Forall_forall in H.
  split; intro Hs; apply Forall_forall; intros b Hb;
    unfold ProfessionalTabs.filteredBookings in Hb;
    apply filter_In in Hb; destruct Hb as [Hb Ht];
    cbn [ProfessionalTabs.inTab] in Ht;
    destruct (Store.hasId bookingId b) eqn:E; try reflexivity;
    specialize (H b Hb E); rewrite H in Ht;
    destruct s; try discriminate Ht; congruence.
Qed.

Lemma updated_booking_shows_new_status_witness :
  let row := Sample.booking "b1" "2025-03-05" pending 500 None 0 in
  let w := {| ProfessionalBookings.table := [row];
              ProfessionalBookings.bookings := [row];
              ProfessionalBookings.console := [] |} in
  let w' := ProfessionalBookings.updateBookingStatus
              (Some "pro-1"%string) Sample.noon_2025_03_10
              ProfessionalBookings.Delivered ProfessionalBookings.Delivered
              "b1" (string_of_status confirmed) w in
  Forall (fun b => Store.hasId "b1" b = true -> status b = confirmed)
         (ProfessionalBookings.bookings w').
Proof.
  cbv zeta.
  refine (proj1 (@updated_booking_shows_new_status
                   "pro-1" Sample.noon_2025_03_10 "b1" confirmed _ _)).
  reflexivity.
Defined.

(** The tabs of the professional's screen and the actions of the cards
    go together: the tab of all bookings lists every booking; a booking
    listed under the pending tab is offered to be declined or accepted,
    one under the confirmed tab to be finished; and a booking has no
    action exactly when neither of these two tabs lists it. *)
Theorem professional_tabs_and_actions (bookings : list Booking) :
  ProfessionalTabs.filteredBookings ProfessionalTabs.allTab bookings
  = bookings
  /\ Forall (fun b => map UI.onPress (ProfessionalBookings.cardButtons b)
                      = [Some (UI.UpdateBookingStatus (id b) "cancelled");
                         Some (UI.UpdateBookingStatus (id b) "confirmed")])
            (ProfessionalTabs.filteredBookings ProfessionalTabs.pendingTab
                                               bookings)
  /\ Forall (fun b => map UI.onPress (ProfessionalBookings.cardButtons b)
                      = [Some (UI.UpdateBookingStatus (id b) "completed")])
            (ProfessionalTabs.filteredBookings ProfessionalTabs.confirmedTab
                                               bookings)
  /\ Forall (fun b =>
               ProfessionalBookings.cardButtons b = []
               <-> ~ In b (ProfessionalTabs.filteredBookings
                             ProfessionalTabs.pendingTab bookings)
                   /\ ~ In b (ProfessionalTabs.filteredBookings
                                ProfessionalTabs.confirmedTab bookings))
            bookings.
Proof.
  unfold ProfessionalTabs.filteredBookings.
  split; [apply filter_true|].
  split; [|split]; apply Forall_forall; intros b Hb.
  - apply filter_In in Hb. destruct Hb as [_ Hb].
    cbn [ProfessionalTabs.inTab] in Hb.
    unfold ProfessionalBookings.cardButtons.
    destruct (status b); try discriminate Hb. reflexivity.
  - apply filter_In in Hb. destruct Hb as [_ Hb].
    cbn [ProfessionalTabs.inTab] in Hb.
    unfold ProfessionalBookings.cardButtons.
    destruct (status b); try discriminate Hb. reflexivity.
  - rewrite !filter_In. cbn [ProfessionalTabs.inTab].
    unfold ProfessionalBookings.cardButtons.
    destruct (status b); cbn [status_eqb app]; split.
    + discriminate.
    + intros [H _]. exfalso. apply H. split; [exact Hb|reflexivity].
    + discriminate.
    + intros [_ H]. exfalso. apply H. split; [exact Hb|reflexivity].
    + intros _. split; intros [_ H]; discriminate H.
    + reflexivity.
    + intros _. split; intros [_ H]; discriminate H.
    + reflexivity.
Qed.

Lemma client_tabs_from (clock : nat -> Z) (n : nat) (l : list Booking) :
  Permutation
    (ClientBookings.filteredBookingsFrom ClientBookings.upcoming clock n l
     ++ ClientBookings.filteredBookingsFrom ClientBookings.past clock n l)
    l.
Proof.
  revert n; induction l as [|b l IH]; intro n;
    cbn [ClientBookings.filteredBookingsFrom].
  - apply Permutation_refl.
  - assert (E : ClientBookings.inTab ClientBookings.past (clock n) b
                = negb (ClientBookings.inTab ClientBookings.upcoming
                                             (clock n) b)).
    { unfold ClientBookings.inTab, ClientBookings.isStatus.
      destruct (status b),
        (ClientBookings.isUpcoming (clock n) (event_date b)); reflexivity. }
    rewrite E.
    destruct (ClientBookings.inTab ClientBookings.upcoming (clock n) b);
      cbn [negb app].
    + apply perm_skip. apply IH.
    + apply Permutation_sym. apply Permutation_cons_app.
      apply Permutation_sym. apply IH.
Qed.

(** The two tabs of the client's screen share out the bookings: read
    against the same clock, every booking is listed under the upcoming
    tab or under the past tab and none under both, so the two lists
    together are the loaded bookings, none lost and none twice; and each
    tab keeps them in the order they were loaded in. *)
Theorem client_tabs_share_out_bookings
        (clock : nat -> Z) (bookings : list Booking) :
  let up := ClientBookings.filteredBookings ClientBookings.upcoming
                                            clock bookings in
  let past := ClientBookings.filteredBookings ClientBookings.past
                                              clock bookings in
  Permutation (up ++ past) bookings
  /\ (List.length up + List.length past = List.length bookings)%nat
  /\ Spec.Subseq up bookings
  /\ Spec.Subseq past bookings.
Proof.
  cbv zeta. unfold ClientBookings.filteredBookings.
  pose proof (client_tabs_from clock 0 bookings) as P.
  split; [exact P|]. split.
  - rewrite <- length_app. apply Permutation_length. exact P.
  - assert (S : forall tab n l,
               Spec.Subseq (ClientBookings.filteredBookingsFrom tab clock n l)
                           l).
    { intros tab n l. revert n. induction l as [|b l IH]; intro n;
        cbn [ClientBookings.filteredBookingsFrom].
      - constructor.
      - destruct (ClientBookings.inTab tab (clock n) b);
          constructor; apply IH. }
    split; apply S.
Qed.

End BookingLists.

(** ** File names and short texts *)

Section Texts.

Local Open Scope string_scope.

Lemma split_not_empty (c : ascii) (s : string) : Format.split c s <> [].
Proof.
  destruct s as [|a s]; cbn [Format.split]; [discriminate|].
  destruct (Ascii.eqb a c); [discriminate|].
  destruct (Format.split c s); discriminate.
Qed.

Lemma split_app (c : ascii) (s1 s2 : string) :
  Format.split c (s1 ++ String c s2)
  = (Format.split c s1 ++ Format.split c s2)%list.
Proof.
  induction s1 as [|a s1 IH]; cbn [append Format.split].
  - rewrite Ascii.eqb_refl. reflexivity.
  - destruct (Ascii.eqb a c).
    + rewrite IH. reflexivity.
    + rewrite IH. pose proof (split_not_empty c s1) as H.
      destruct (Format.split c s1); [contradiction|reflexivity].
Qed.

Lemma split_free (c : ascii) (s : string) :
  ~ In c (list_ascii_of_string s) -> Format.split c s = [s].
Proof.
  induction s as [|a s IH]; cbn [Format.split list_ascii_of_string];
    intro H.
  - reflexivity.
  - destruct (Ascii.eqb_spec a c) as [E|E].
    + exfalso. apply H. left. exact E.
    + rewrite IH; [reflexivity|]. intro Hin. apply H. right. exact Hin.
Qed.

Lemma split_segments_free (c : ascii) (s seg : string) :
  In seg (Format.split c s) -> ~ In c (list_ascii_of_string seg).
Proof.
  revert seg; induction s as [|a s IH]; intros seg H;
    cbn [Format.split] in H.
  - destruct H as [<-|[]]. intros [].
  - destruct (Ascii.eqb_spec a c) as [E|E].
    + destruct H as [<-|H]; [intros []|apply IH; exact H].
    + pose proof (split_not_empty c s) as Hne.
      destruct (Format.split c s) as [|h t] eqn:S; [contradiction|].
      destruct H as [<-|H].
      * cbn [list_ascii_of_string]. intros [Ha|Hin]; [congruence|].
        apply (IH h); [left; reflexivity|exact Hin].
      * apply IH. right. exact H.
Qed.

Lemma last_app_nonempty (A : Type) (l1 l2 : list A) (d : A) :
  l2 <> [] -> last (l1 ++ l2) d = last l2 d.
Proof.
  intro H. induction l1 as [|x l1 IH]; [reflexivity|].
  cbn [app]. destruct (l1 ++ l2)%list eqn:E.
  - apply app_eq_nil in E. destruct E as [_ E]. contradiction.
  - rewrite <- IH. reflexivity.
Qed.

Lemma last_In (A : Type) (l : list A) (d : A) : l <> [] -> In (last l d) l.
Proof.
  induction l as [|x l IH]; intro H; [contradiction|].
  destruct l as [|y l]; [left; reflexivity|].
  right. apply IH. discriminate.
Qed.

Lemma lowerChar_idem (c : ascii) :
  JS.lowerChar (JS.lowerChar c) = JS.lowerChar c.
Proof.
  destruct c as [[] [] [] [] [] [] [] []]; reflexivity.
Qed.

Lemma lowerChar_dot (c : ascii) :
  JS.lowerChar c = "."%char -> c = "."%char.
Proof.
  destruct c as [[] [] [] [] [] [] [] []]; vm_compute; intro H;
    first [reflexivity|discriminate H].
Qed.

Lemma toLowerCase_idem (s : string) :
  JS.toLowerCase (JS.toLowerCase s) = JS.toLowerCase s.
Proof.
  induction s as [|c s IH]; cbn [JS.toLowerCase]; [reflexivity|].
  rewrite lowerChar_idem, IH. reflexivity.
Qed.

Lemma toLowerCase_free (s : string) :
  ~ In "."%char (list_ascii_of_string s) ->
  ~ In "."%char (list_ascii_of_string (JS.toLowerCase s)).
Proof.
  induction s as [|c s IH]; cbn [JS.toLowerCase list_ascii_of_string];
    intros H Hin; [exact Hin|].
  destruct Hin as [E|Hin].
  - apply H. left. apply lowerChar_dot. exact E.
  - apply IH; [|exact Hin]. intro H'. apply H. right. exact H'.
Qed.

(** The extension a file is uploaded under is never empty, holds no dot
    and no capital letter: it is the text after the last dot of the
    address, in lower case, and "jpg" when nothing follows the last dot.
    An address without any dot is taken whole as the extension.  The
    name built for the avatar, the user's id, a dot and the extension,
    ends in that extension. *)
Theorem fileExt_is_a_plain_extension (userId uri : string) :
  Avatar.fileExt uri <> ""
  /\ ~ In "."%char (list_ascii_of_string (Avatar.fileExt uri))
  /\ JS.toLowerCase (Avatar.fileExt uri) = Avatar.fileExt uri
  /\ (forall pre ext,
        uri = pre ++ String "."%char ext ->
        ~ In "."%char (list_ascii_of_string ext) ->
        Avatar.fileExt uri
        = if JS.truthy ext then JS.toLowerCase ext else "jpg")
  /\ (~ In "."%char (list_ascii_of_string uri) ->
      Avatar.fileExt uri
      = if JS.truthy uri then JS.toLowerCase uri else "jpg")
  /\ Avatar.fileExt (Avatar.fileName userId uri) = Avatar.fileExt uri.
Proof.
  assert (Hfree : ~ In "."%char
                    (list_ascii_of_string
                       (last (Format.split "."%char uri) ""))).
  { apply (split_segments_free "."%char uri).
    apply last_In. apply split_not_empty. }
  assert (Hext : forall u pre ext,
            u = pre ++ String "."%char ext ->
            ~ In "."%char (list_ascii_of_string ext) ->
            Avatar.fileExt u
            = if JS.truthy ext then JS.toLowerCase ext else "jpg").
  { intros u pre ext -> Hf. unfold Avatar.fileExt.
    rewrite split_app, last_app_nonempty by apply split_not_empty.
    rewrite (split_free _ _ Hf). cbn [last].
    destruct ext; reflexivity. }
  assert (Hplain : ~ In "."%char (list_ascii_of_string (Avatar.fileExt uri))
                   /\ JS.toLowerCase (Avatar.fileExt uri)
                      = Avatar.fileExt uri
                   /\ Avatar.fileExt uri <> "").
  { unfold Avatar.fileExt.
    destruct (JS.truthy
                (JS.toLowerCase (last (Format.split "."%char uri) "")))
      eqn:T.
    - split; [apply toLowerCase_free; exact Hfree|].
      split; [apply toLowerCase_idem|].
      intro E. rewrite E in T. discriminate T.
    - split; [|split; [reflexivity|discriminate]].
      cbn. intros [H|[H|[H|[]]]]; discriminate H. }
  destruct Hplain as (H1 & H2 & H3).
  split; [exact H3|]. split; [exact H1|]. split; [exact H2|].
  split; [intros pre ext; apply Hext|]. split.
  - intro Hf. unfold Avatar.fileExt. rewrite (split_free _ _ Hf).
    cbn [last]. destruct uri; reflexivity.
  - rewrite (Hext (Avatar.fileName userId uri) userId (Avatar.fileExt uri)
                  eq_refl H1).
    rewrite H2. destruct (Avatar.fileExt uri); [contradiction|reflexivity].
Qed.

(** The first name of the greeting holds no space and is the beginning
    of the full name: the full name itself, or what comes before its
    first space.  Without a name there is none. *)
Theorem firstName_is_the_first_word (full_name : string) :
  Format.firstName None = None
  /\ exists first,
       Format.firstName (Some full_name) = Some first
       /\ ~ In " "%char (list_ascii_of_string first)
       /\ (full_name = first
           \/ exists rest, full_name = first ++ String " "%char rest).
Proof.
  split; [reflexivity|]. cbn [Format.firstName].
  induction full_name as [|a s IH]; cbn [Format.split hd_error].
  - exists "". split; [reflexivity|]. split; [intros []|left; reflexivity].
  - destruct (Ascii.eqb_spec a " "%char) as [E|E].
    + subst a. exists "". split; [reflexivity|].
      split; [intros []|right; exists s; reflexivity].
    + destruct IH as [first [Hf [Hfree Hs]]].
      destruct (Format.split " "%char s) as [|h t]; [discriminate Hf|].
      cbn [hd_error] in *. inversion Hf; subst h.
      exists (String a first). split; [reflexivity|]. split.
      * cbn [list_ascii_of_string]. intros [Ha|Hin];
          [congruence|contradiction].
      * destruct Hs as [->|[rest ->]]; [left; reflexivity|].
        right. exists rest. reflexivity.
Qed.

Lemma substring_none (s : string) : substring 0 0 s = "".
Proof. destruct s; reflexivity. Qed.

(** The time shown on a card is the beginning of the stored time, five
    characters of it at most: a stored time of five characters or more
    is cut to five, a shorter one is shown whole, and cutting again
    changes nothing. *)
Theorem formatTime_is_a_prefix (time : string) :
  (exists rest, time = Format.formatTime time ++ rest)
  /\ String.length (Format.formatTime time) = Nat.min 5 (String.length time)
  /\ Format.formatTime (Format.formatTime time) = Format.formatTime time.
Proof.
  unfold Format.formatTime.
  destruct time as [|c1 [|c2 [|c3 [|c4 [|c5 rest]]]]];
    cbn [substring]; rewrite ?substring_none;
    cbn [substring String.length Nat.min append];
    rewrite ?substring_none;
    (split; [|split; reflexivity]).
  - exists "". reflexivity.
  - exists "". reflexivity.
  - exists "". reflexivity.
  - exists "". reflexivity.
  - exists "". reflexivity.
  - exists rest. reflexivity.
Qed.

End Texts.

(** ** Choosing a picture *)

Section Pictures.

Import Avatar.
Local Open Scope string_scope.

Ltac no_success :=
  let H := fresh "H" in
  intro H; cbn [In] in H;
  repeat (destruct H as [H|H]; [discriminate H|]);
  destruct H.

Lemma handleUpdateAvatar_cases
      (source : Source) (permission : option string)
      (picked : option PickerResult) (env : Backend) :
  (exists u, handsOn permission picked u
             /\ handleUpdateAvatar source permission picked env
                = uploadAvatar env u)
  \/ ((forall u, ~ handsOn permission picked u)
      /\ forallb isNotice (handleUpdateAvatar source permission picked env)
         = true
      /\ ~ In (Alert "Sucesso" "Avatar atualizado com sucesso!")
              (handleUpdateAvatar source permission picked env)).
Proof.
  unfold handleUpdateAvatar, handsOn, sizeLimit.
  destruct permission as [status|].
  2:{ right. split; [intros u [H _]; discriminate H|].
      split; [reflexivity|no_success]. }
  destruct (String.eqb_spec status "granted") as [E|E]; cbn [negb].
  2:{ right. split; [intros u [H _]; congruence|].
      split; [reflexivity|destruct source; no_success]. }
  subst status.
  destruct picked as [result|].
  2:{ right. split; [|split; [reflexivity|no_success]].
      intros u [_ (r & a & t & H & _)]. discriminate H. }
  destruct (canceled result) eqn:C.
  { right. split; [|split; [reflexivity|no_success]].
    intros u [_ (r & a & t & H & Hc & _)]. inversion H; subst r.
    congruence. }
  destruct (assets result) as [|asset rest] eqn:A.
  { right. split; [|split; [reflexivity|no_success]].
    intros u [_ (r & a & t & H & _ & Ha & _)]. inversion H; subst r.
    congruence. }
  set (size := match fileSize asset with
               | Some n => n
               | None => 0%Z
               end).
  destruct (size >? 50 * 1024 * 1024)%Z eqn:S.
  - right. split; [|split; [reflexivity|no_success]].
    intros u [_ (r & a & t & H & _ & Ha & _ & Hs)].
    inversion H; subst r. rewrite A in Ha. inversion Ha; subst a t.
    fold size in Hs. lia.
  - left. exists (uri asset). split; [|reflexivity].
    split; [reflexivity|]. exists result, asset, rest.
    repeat split; try assumption. fold size. lia.
Qed.

Lemma handsOn_one (permission : option string)
      (picked : option PickerResult) (u u' : string) :
  handsOn permission picked u -> handsOn permission picked u' -> u = u'.
Proof.
  intros [_ (r & a & t & H & _ & Ha & Hu & _)]
         [_ (r' & a' & t' & H' & _ & Ha' & Hu' & _)].
  rewrite H in H'. inversion H'; subst r'. rewrite Ha in Ha'.
  inversion Ha'; subst a' t'. congruence.
Qed.

Lemma notice_only (l : list Effect) (e : Effect) :
  forallb isNotice l = true -> In e l -> isNotice e = true.
Proof.
  intros H Hin. rewrite forallb_forall in H. apply H. exact Hin.
Qed.

Ltac upload_cases env :=
  unfold uploadAvatar, caughtUpload;
  destruct env as [s up pu t db rf]; cbn [session upload publicUrl time
                                          dbUpdate refresh];
  destruct s as [userId|];
  [destruct up as [|m1];
   [destruct pu as [purl|];
    [destruct db as [|m2]; [destruct rf as [|m3]|]|]|]|].

Lemma uploadAvatar_request (env : Backend) (u bucket name u' type : string) :
  In (StorageUpload bucket name u' type) (uploadAvatar env u)
  <-> exists userId, session env = Some userId
                     /\ bucket = "avatars"
                     /\ name = fileName userId u
                     /\ u' = u
                     /\ type = "image/" ++ fileExt u.
Proof.
  upload_cases env; cbn [In]; split;
    try (intros [userId' [H _]]; discriminate H);
    try (intros [userId' (H & -> & -> & -> & ->)]; inversion H; subst;
         right; left; reflexivity);
    intro H;
    repeat (destruct H as [H|H]; try discriminate H);
    try (inversion H; subst; exists userId; repeat split; reflexivity);
    try (destruct H).
Qed.

Lemma uploadAvatar_success (env : Backend) (u : string) :
  In (Alert "Sucesso" "Avatar atualizado com sucesso!") (uploadAvatar env u)
  <-> session env <> None /\ upload env = Done /\ publicUrl env <> None
      /\ dbUpdate env = Done /\ refresh env = Done.
Proof.
  upload_cases env; cbn [In]; split;
    try (intros (H1 & H2 & H3 & H4 & H5);
         first [discriminate H2|discriminate H4|discriminate H5
               |exfalso; apply H1; reflexivity
               |exfalso; apply H3; reflexivity
               |tauto]);
    intro H;
    repeat (destruct H as [H|H]; try discriminate H);
    try (destruct H);
    try (repeat split; try reflexivity; discriminate).
Qed.

Lemma uploadAvatar_profile (env : Backend) (u id url : string) :
  In (ProfileUpdate id url) (uploadAvatar env u) ->
  session env = Some id /\ upload env = Done
  /\ exists p, publicUrl env = Some p
               /\ url = p ++ "?t=" ++ numberToString (time env).
Proof.
  upload_cases env; cbn [In]; intro H;
    repeat (destruct H as [H|H]; try discriminate H);
    try contradiction;
    inversion H; subst; repeat split; eexists; split; reflexivity.
Qed.

Lemma uploadAvatar_brackets (env : Backend) (u : string) :
  In (SetUploadingAvatar true) (uploadAvatar env u) ->
  hd_error (uploadAvatar env u) = Some (SetUploadingAvatar true)
  /\ last (uploadAvatar env u) RefreshProfile = SetUploadingAvatar false
  /\ List.length (filter isAlert (uploadAvatar env u)) = 1%nat.
Proof.
  upload_cases env; cbn [In]; intro H;
    try (repeat split; reflexivity);
    destruct H.
Qed.

(** A picture is sent to the storage exactly when access was granted, a
    picture was chosen and not cancelled, its size, taken as 0 when
    unknown, is 50 MB at most, and a user is signed in; it is then the
    first picture chosen, sent to the bucket of the avatars under the
    user's id and the extension of the uri.  The profile row is written
    only for the signed-in user and only after the storage took the
    file.  Success is announced exactly when every request went
    through.  And a run that raises the uploading flag begins with
    that, ends with lowering it, and raises exactly one alert. *)
Theorem avatar_is_stored_only_after_the_checks
        (source : Source) (permission : option string)
        (picked : option PickerResult) (env : Backend) :
  let effects := handleUpdateAvatar source permission picked env in
  (forall bucket name u type,
     In (StorageUpload bucket name u type) effects
     <-> handsOn permission picked u
         /\ exists userId, session env = Some userId
                           /\ bucket = "avatars"
                           /\ name = fileName userId u
                           /\ type = "image/" ++ fileExt u)
  /\ (forall id url,
        In (ProfileUpdate id url) effects ->
        session env = Some id /\ upload env = Done
        /\ exists p, publicUrl env = Some p
                     /\ url = p ++ "?t=" ++ numberToString (time env))
  /\ (In (Alert "Sucesso" "Avatar atualizado com sucesso!") effects
      <-> (exists u, handsOn permission picked u)
          /\ session env <> None /\ upload env = Done
          /\ publicUrl env <> None
          /\ dbUpdate env = Done /\ refresh env = Done)
  /\ (In (SetUploadingAvatar true) effects ->
      hd_error effects = Some (SetUploadingAvatar true)
      /\ last effects RefreshProfile = SetUploadingAvatar false
      /\ List.length (filter isAlert effects) = 1%nat)
  /\ handleUpdateAvatar gallery (Some "granted")
       (Some {| canceled := false;
                assets := [{| uri := "file:///tmp/Foto.PNG";
                              fileSize := Some 1024%Z |}] |})
       {| session := Some "u1"; upload := Done;
          publicUrl := Some "https://cdn/avatars/u1.png";
          time := 1741608000000%Z; dbUpdate := Done; refresh := Done |}
     = [ SetUploadingAvatar true;
         StorageUpload "avatars" "u1.png" "file:///tmp/Foto.PNG" "image/png";
         ProfileUpdate "u1" "https://cdn/avatars/u1.png?t=1741608000000";
         RefreshProfile;
         Alert "Sucesso" "Avatar atualizado com sucesso!";
         SetUploadingAvatar false ].
Proof.
  intro effects. unfold effects.
  destruct (handleUpdateAvatar_cases source permission picked env)
    as [[u0 [Hon ->]]|[Hoff [Hnotice Hnone]]].
  - split; [|split; [|split; [|split; [|reflexivity]]]].
    + intros bucket name u type. rewrite uploadAvatar_request. split.
      * intros [userId (Hs & -> & -> & -> & ->)].
        split; [exact Hon|]. exists userId. repeat split. exact Hs.
      * intros [Hu [userId (Hs & -> & -> & ->)]].
        rewrite (handsOn_one Hu Hon). exists userId.
        repeat split. exact Hs.
    + intros id url. apply uploadAvatar_profile.
    + rewrite uploadAvatar_success. split.
      * intro H. split; [exists u0; exact Hon|exact H].
      * intros [_ H]. exact H.
    + apply uploadAvatar_brackets.
  - split; [|split; [|split; [|split; [|reflexivity]]]].
    + intros bucket name u type. split.
      * intro H. apply (@notice_only _ _ Hnotice) in H. discriminate H.
      * intros [Hu _]. exfalso. exact (Hoff u Hu).
    + intros id url H. apply (@notice_only _ _ Hnotice) in H. discriminate H.
    + split.
      * intro H. exfalso. exact (Hnone H).
      * intros [[u Hu] _]. exfalso. exact (Hoff u Hu).
    + intro H. apply (@notice_only _ _ Hnotice) in H. discriminate H.
Qed.

End Pictures.

(** ** The text search *)

Section TextSearch.

Local Open Scope string_scope.

Lemma prefix_app (a b : string) :
  String.prefix a b = true <-> exists post, b = a ++ post.
Proof.
  revert b; induction a as [|c a IH]; intro b.
  - split; [intros _; exists b; reflexivity|].
    intros _. destruct b; reflexivity.
  - destruct b as [|d b]; cbn [String.prefix append].
    + split; [discriminate|intros [post H]; discriminate H].
    + destruct (Ascii.ascii_dec c d) as [E|E].
      * subst d. rewrite IH. split; intros [post H]; exists post.
        -- rewrite H. reflexivity.
        -- inversion H. reflexivity.
      * split; [discriminate|intros [post H]; inversion H; congruence].
Qed.

(** [includes] finds exactly the substrings. *)
Lemma includes_substring (s sub : string) :
  JS.includes s sub = true <-> exists pre post, s = pre ++ sub ++ post.
Proof.
  induction s as [|c s IH]; cbn [JS.includes].
  - rewrite orb_false_r, prefix_app. split.
    + intros [post H]. exists "", post. exact H.
    + intros [pre [post H]]. destruct pre; [exists post; exact H|].
      discriminate H.
  - rewrite orb_true_iff, prefix_app, IH. split.
    + intros [[post H]|[pre [post H]]].
      * exists "", post. exact H.
      * exists (String c pre), post. rewrite H. reflexivity.
    + intros [pre [post H]]. destruct pre as [|d pre].
      * left. exists post. exact H.
      * right. inversion H. exists pre, post. reflexivity.
Qed.

(** The search depends on the query only through its lower-case form
    and through its being blank or not: two queries with the same
    [toLowerCase()] that are both blank or both not give the same
    results, whatever the toggles and whatever [toLowerCase] does to
    the letters outside ASCII.  With the ASCII readings of the two
    functions this is the search of the screen. *)
Theorem search_depends_on_lower_case_query
        (toLowerCase : string -> string) (trimIsTruthy : string -> bool)
        (q q' : string) (toggles : list string)
        (services : list Search.Service) :
  toLowerCase q = toLowerCase q' ->
  trimIsTruthy q = trimIsTruthy q' ->
  SearchLocale.filterServices toLowerCase trimIsTruthy q toggles services
  = SearchLocale.filterServices toLowerCase trimIsTruthy q' toggles services
  /\ SearchLocale.filterServices JS.toLowerCase JS.trimIsTruthy
                                 q toggles services
     = Search.filterServices q toggles services.
Proof.
  intros H T. split; [|reflexivity].
  unfold SearchLocale.filterServices.
  assert (M : filter (SearchLocale.matchesText toLowerCase q) services
              = filter (SearchLocale.matchesText toLowerCase q') services).
  { apply filter_ext_bool. intro s. unfold SearchLocale.matchesText.
    rewrite H. reflexivity. }
  rewrite T, M. reflexivity.
Qed.

Lemma search_depends_on_lower_case_query_witness :
  Search.filterServices "CHURRASCO" [] [Sample.service "s1" 400]
  = Search.filterServices "churrasco" [] [Sample.service "s1" 400]
  /\ Search.filterServices "churrasco" [] [Sample.service "s1" 400]
     = [Sample.service "s1" 400].
Proof.
  split; [|reflexivity].
  exact (proj1 (@search_depends_on_lower_case_query
                  JS.toLowerCase JS.trimIsTruthy "CHURRASCO" "churrasco" []
                  [Sample.service "s1" 400] eq_refl eq_refl)).
Defined.

End TextSearch.
